(** * The document collection store (stores/documents)

    A shallow embedding of the Pinia store [useDocumentStore]: the data it
    holds, the asynchronous actions it exposes, and the properties of the
    label resolver, the pagination controller, the collaborator payload and
    the error handler.

    The numbers the store holds are whole numbers and are modelled as the
    [Z] they denote, their sums as the nearest double ([js_add]); strings
    are modelled as [string], arrays as [list], [T | null] as [option T].
    An [async] function is a [Task]: a tree whose nodes are the points
    where the function waits for the gateway. *)

From Stdlib Require Import ZArith List String Bool Lia.
From stdpp Require Import base gmap strings list.
Import ListNotations.

Local Open Scope string_scope.
Local Open Scope list_scope.
Local Open Scope Z_scope.

(** ** Data model *)

(** Modelled from the spec: the [User] type is declared in stores/users,
    which is not part of the sources.  The fields are the columns the
    single-document query selects for the owner ([users(id, email, name,
    avatar_url)]); the store itself reads only [id]. *)
Record User := {
  u_id : string;
  u_email : string;
  u_name : option string;
  u_avatar_url : option string;
}.

(** Modelled from the spec: the [Filters] type is declared in
    components/documents/filters.vue, which is not part of the sources.
    The spec calls it an externally defined predicate bag; the store never
    inspects it and only hands it to the gateway. *)
Definition Filters : Type := list (string * string).

(** Modelled from the spec: the sibling label stores expose [tags] and
    [categories] as ordered sequences of [{slug, name}]. *)
Record Label := {
  slug : string;
  name : string;
}.

Record DocumentForm := {
  f_id : option string;
  f_name : string;
  f_details : option string;
  f_url : string;
  f_is_draft : bool;
  f_is_public : bool;
  f_tags : list string;
  f_category : option string;
}.

Record File := {
  file_name : string;
  file_type : string;
  file_size : Z;
}.

Record Document := {
  category : option string;
  created_at : string;
  details : option string;
  d_file_size : option Z;
  d_file_type : option string;
  id : string;
  is_draft : bool;
  is_public : bool;
  last_accessed_at : option string;
  d_name : string;
  tags : list string;
  updated_at : string;
  url : string;
  user_id : string;
  original_name : option string;
  comments : option (list Z);
  user : option User;
}.

Inductive OrderByKeys :=
| by_created_at | by_updated_at | by_last_accessed_at
| by_file_size | by_is_public | by_name.

(** [Partial<Record<OrderByKeys, boolean>>], in insertion order. *)
Definition Order : Type := list (OrderByKeys * bool).

Record Range := {
  from : Z;
  to : Z;
}.

Record DocumentParams := {
  range : Range;
  filters : option Filters;
  order : Order;
}.

Inductive GetDocumentsCriteria := mine | private | drafts | sharedWithMe.

(** Values of type [any] that reach the error handler: a string (the
    store's own messages) or an object, whose [message] may be missing
    (gateway errors, thrown [Error]s, the literal [{ error: ... }]).
    [null] and [undefined] are never passed by the store and are not
    modelled. *)
Inductive ErrorValue :=
| EStr (s : string)
| EObj (message : option string).

(** The error payload of a gateway response: an object with a message. *)
Record GatewayError := { ge_message : string }.

Definition thrown (e : GatewayError) : ErrorValue := EObj (Some (ge_message e)).

(** Calls received by the toasts store. *)
Inductive Toast :=
| addError (title : string) (message : option string)
| addSuccess (title message : string).

(** What an action hands back: JavaScript's [undefined], [null], a
    boolean, or a value. *)
Inductive Js (A : Type) : Type :=
| JUndefined
| JNull
| JBool (b : bool)
| JVal (a : A).
Arguments JUndefined {A}.
Arguments JNull {A}.
Arguments JBool {A} b.
Arguments JVal {A} a.

(** The [error] ref is only ever assigned [null]. *)
Inductive ErrorRef := error_undefined | error_null.

(** ** The store

    The refs declared by the setup function, followed by the state of the
    sibling stores the actions read ([auth.user], [tagStore.tags],
    [categoryStore.categories]) and the two sinks they write to (the
    toasts store and [console.error]). *)
Record Store := {
  errors : gmap string (option string);
  error : ErrorRef;
  loadingAll : bool;
  loadingSingle : bool;
  uploading : bool;
  _documents : list Document;
  pageNumber : Z;
  limitReached : bool;
  totalDocuments : option Z;
  params : DocumentParams;
  loadingNextPage : bool;
  auth_user : option User;
  tagStore_tags : list Label;
  categoryStore_categories : list Label;
  toasts : list Toast;
  console : list ErrorValue;
}.

(** [perPage] is a ref that no code assigns and the store does not expose. *)
Definition perPage : Z := 10.

Definition initial (u : option User) (ts cs : list Label) : Store := {|
  errors := ∅;
  error := error_undefined;
  loadingAll := false;
  loadingSingle := false;
  uploading := false;
  _documents := [];
  pageNumber := 1;
  limitReached := true;
  totalDocuments := None;
  params := {| order := [(by_created_at, false)];
               filters := None;
               range := {| from := 0; to := perPage - 1 |} |};
  loadingNextPage := false;
  auth_user := u;
  tagStore_tags := ts;
  categoryStore_categories := cs;
  toasts := [];
  console := [];
|}.

(** Assignments to one ref. *)
Definition set_errors (v : gmap string (option string)) (s : Store) : Store :=
  {| errors := v; error := error s; loadingAll := loadingAll s;
     loadingSingle := loadingSingle s; uploading := uploading s;
     _documents := _documents s; pageNumber := pageNumber s;
     limitReached := limitReached s; totalDocuments := totalDocuments s;
     params := params s; loadingNextPage := loadingNextPage s;
     auth_user := auth_user s; tagStore_tags := tagStore_tags s;
     categoryStore_categories := categoryStore_categories s;
     toasts := toasts s; console := console s |}.

Definition set_error (v : ErrorRef) (s : Store) : Store :=
  {| errors := errors s; error := v; loadingAll := loadingAll s;
     loadingSingle := loadingSingle s; uploading := uploading s;
     _documents := _documents s; pageNumber := pageNumber s;
     limitReached := limitReached s; totalDocuments := totalDocuments s;
     params := params s; loadingNextPage := loadingNextPage s;
     auth_user := auth_user s; tagStore_tags := tagStore_tags s;
     categoryStore_categories := categoryStore_categories s;
     toasts := toasts s; console := console s |}.

Definition set_loadingAll (v : bool) (s : Store) : Store :=
  {| errors := errors s; error := error s; loadingAll := v;
     loadingSingle := loadingSingle s; uploading := uploading s;
     _documents := _documents s; pageNumber := pageNumber s;
     limitReached := limitReached s; totalDocuments := totalDocuments s;
     params := params s; loadingNextPage := loadingNextPage s;
     auth_user := auth_user s; tagStore_tags := tagStore_tags s;
     categoryStore_categories := categoryStore_categories s;
     toasts := toasts s; console := console s |}.

Definition set_loadingSingle (v : bool) (s : Store) : Store :=
  {| errors := errors s; error := error s; loadingAll := loadingAll s;
     loadingSingle := v; uploading := uploading s;
     _documents := _documents s; pageNumber := pageNumber s;
     limitReached := limitReached s; totalDocuments := totalDocuments s;
     params := params s; loadingNextPage := loadingNextPage s;
     auth_user := auth_user s; tagStore_tags := tagStore_tags s;
     categoryStore_categories := categoryStore_categories s;
     toasts := toasts s; console := console s |}.

Definition set_uploading (v : bool) (s : Store) : Store :=
  {| errors := errors s; error := error s; loadingAll := loadingAll s;
     loadingSingle := loadingSingle s; uploading := v;
     _documents := _documents s; pageNumber := pageNumber s;
     limitReached := limitReached s; totalDocuments := totalDocuments s;
     params := params s; loadingNextPage := loadingNextPage s;
     auth_user := auth_user s; tagStore_tags := tagStore_tags s;
     categoryStore_categories := categoryStore_categories s;
     toasts := toasts s; console := console s |}.

Definition set_documents (v : list Document) (s : Store) : Store :=
  {| errors := errors s; error := error s; loadingAll := loadingAll s;
     loadingSingle := loadingSingle s; uploading := uploading s;
     _documents := v; pageNumber := pageNumber s;
     limitReached := limitReached s; totalDocuments := totalDocuments s;
     params := params s; loadingNextPage := loadingNextPage s;
     auth_user := auth_user s; tagStore_tags := tagStore_tags s;
     categoryStore_categories := categoryStore_categories s;
     toasts := toasts s; console := console s |}.

Definition set_pageNumber (v : Z) (s : Store) : Store :=
  {| errors := errors s; error := error s; loadingAll := loadingAll s;
     loadingSingle := loadingSingle s; uploading := uploading s;
     _documents := _documents s; pageNumber := v;
     limitReached := limitReached s; totalDocuments := totalDocuments s;
     params := params s; loadingNextPage := loadingNextPage s;
     auth_user := auth_user s; tagStore_tags := tagStore_tags s;
     categoryStore_categories := categoryStore_categories s;
     toasts := toasts s; console := console s |}.

Definition set_limitReached (v : bool) (s : Store) : Store :=
  {| errors := errors s; error := error s; loadingAll := loadingAll s;
     loadingSingle := loadingSingle s; uploading := uploading s;
     _documents := _documents s; pageNumber := pageNumber s;
     limitReached := v; totalDocuments := totalDocuments s;
     params := params s; loadingNextPage := loadingNextPage s;
     auth_user := auth_user s; tagStore_tags := tagStore_tags s;
     categoryStore_categories := categoryStore_categories s;
     toasts := toasts s; console := console s |}.

Definition set_totalDocuments (v : option Z) (s : Store) : Store :=
  {| errors := errors s; error := error s; loadingAll := loadingAll s;
     loadingSingle := loadingSingle s; uploading := uploading s;
     _documents := _documents s; pageNumber := pageNumber s;
     limitReached := limitReached s; totalDocuments := v;
     params := params s; loadingNextPage := loadingNextPage s;
     auth_user := auth_user s; tagStore_tags := tagStore_tags s;
     categoryStore_categories := categoryStore_categories s;
     toasts := toasts s; console := console s |}.

Definition set_params (v : DocumentParams) (s : Store) : Store :=
  {| errors := errors s; error := error s; loadingAll := loadingAll s;
     loadingSingle := loadingSingle s; uploading := uploading s;
     _documents := _documents s; pageNumber := pageNumber s;
     limitReached := limitReached s; totalDocuments := totalDocuments s;
     params := v; loadingNextPage := loadingNextPage s;
     auth_user := auth_user s; tagStore_tags := tagStore_tags s;
     categoryStore_categories := categoryStore_categories s;
     toasts := toasts s; console := console s |}.

Definition set_loadingNextPage (v : bool) (s : Store) : Store :=
  {| errors := errors s; error := error s; loadingAll := loadingAll s;
     loadingSingle := loadingSingle s; uploading := uploading s;
     _documents := _documents s; pageNumber := pageNumber s;
     limitReached := limitReached s; totalDocuments := totalDocuments s;
     params := params s; loadingNextPage := v;
     auth_user := auth_user s; tagStore_tags := tagStore_tags s;
     categoryStore_categories := categoryStore_categories s;
     toasts := toasts s; console := console s |}.

Definition push_toast (t : Toast) (s : Store) : Store :=
  {| errors := errors s; error := error s; loadingAll := loadingAll s;
     loadingSingle := loadingSingle s; uploading := uploading s;
     _documents := _documents s; pageNumber := pageNumber s;
     limitReached := limitReached s; totalDocuments := totalDocuments s;
     params := params s; loadingNextPage := loadingNextPage s;
     auth_user := auth_user s; tagStore_tags := tagStore_tags s;
     categoryStore_categories := categoryStore_categories s;
     toasts := toasts s ++ [t]; console := console s |}.

Definition console_error (e : ErrorValue) (s : Store) : Store :=
  {| errors := errors s; error := error s; loadingAll := loadingAll s;
     loadingSingle := loadingSingle s; uploading := uploading s;
     _documents := _documents s; pageNumber := pageNumber s;
     limitReached := limitReached s; totalDocuments := totalDocuments s;
     params := params s; loadingNextPage := loadingNextPage s;
     auth_user := auth_user s; tagStore_tags := tagStore_tags s;
     categoryStore_categories := categoryStore_categories s;
     toasts := toasts s; console := console s ++ [e] |}.

(** ** Label resolver *)

(** [labels.find((l) => l.slug === s)?.name ?? s] *)
Definition lookupName (labels : list Label) (s : string) : string :=
  match List.find (fun l => String.eqb (slug l) s) labels with
  | Some l => name l
  | None => s
  end.

(** The same expression on [string | null]: no label has the slug [null]. *)
Definition lookupCategory (labels : list Label) (c : option string) : option string :=
  match c with
  | Some s => Some (lookupName labels s)
  | None => None
  end.

Definition with_labels (c : option string) (ts : list string) (d : Document) : Document :=
  {| category := c; created_at := created_at d; details := details d;
     d_file_size := d_file_size d; d_file_type := d_file_type d; id := id d;
     is_draft := is_draft d; is_public := is_public d;
     last_accessed_at := last_accessed_at d; d_name := d_name d;
     tags := ts; updated_at := updated_at d; url := url d;
     user_id := user_id d; original_name := original_name d;
     comments := comments d; user := user d |}.

Definition updateDocumentTagsAndCategory (s : Store) (_doc : Document) : Document :=
  with_labels (lookupCategory (categoryStore_categories s) (category _doc))
              (List.map (lookupName (tagStore_tags s)) (tags _doc))
              _doc.

(** The computed [documents]: the stored rows with their labels resolved,
    rebuilt on every read. *)
Definition documents (s : Store) : list Document :=
  List.map (fun d =>
    with_labels (lookupCategory (categoryStore_categories s) (category d))
                (List.map (lookupName (tagStore_tags s)) (tags d))
                d)
    (_documents s).

(** ** The gateway *)

(** A row of [document_collaborators]. *)
Record CollaboratorRow := {
  document_id : string;
  cr_user_id : string;
}.

(** [{ ...form, url: path, file_type, file_size, original_name, user_id }] *)
Record InsertPayload := {
  ip_form : DocumentForm;
  ip_file_type : string;
  ip_file_size : Z;
  ip_original_name : string;
  ip_user_id : string;
}.

Record FileDetails := {
  fd_file_size : option Z;
  fd_file_type : option string;
  fd_original_name : option string;
  fd_url : option string;
}.

(** [{ ...data, ...fileDetails, updated_at }] *)
Record UpdatePayload := {
  up_form : DocumentForm;
  up_file_size : option Z;
  up_file_type : option string;
  up_original_name : option string;
  up_updated_at : string;
}.

(** Every call the store makes that returns a promise. *)
Inductive Request :=
| GetPublicDocuments (o : Order) (r : Range) (f : option Filters)
| GetMyDocuments
| GetMyPrivateDocuments
| GetMyDraftDocuments
| GetDocumentsSharedWithMe
| CountDocuments
| StorageUpload (path : string) (file : File)
| StorageUpdate (path : string) (file : File)
| StorageRemove (paths : list string)
| InsertDocument (payload : InsertPayload)
| SelectDocument (doc_id : string)
| UpdateDocument (payload : UpdatePayload) (doc_id : string)
| DeleteDocument (doc_id : string)
| DeleteCollaborators (doc_id : string)
| InsertCollaborators (payload : list CollaboratorRow).

Record RowsResponse := {
  data : option (list Document);
  r_error : option GatewayError;
}.

Record CountResponse := {
  count : option Z;
  c_error : option GatewayError;
}.

(** [data] is [{ path }] or [null]. *)
Record PathResponse := {
  p_data : option string;
  p_error : option GatewayError;
}.

Record RemoveResponse := {
  rm_data : option (list string);
  rm_error : option GatewayError;
}.

Record StatusResponse := { status : Z }.

Record ErrorResponse := { e_error : option GatewayError }.

Definition Payload (rq : Request) : Type :=
  match rq with
  | GetPublicDocuments _ _ _ | GetMyDocuments | GetMyPrivateDocuments
  | GetMyDraftDocuments | GetDocumentsSharedWithMe
  | InsertDocument _ | SelectDocument _ => RowsResponse
  | CountDocuments => CountResponse
  | StorageUpload _ _ | StorageUpdate _ _ => PathResponse
  | StorageRemove _ => RemoveResponse
  | UpdateDocument _ _ | DeleteDocument _ | DeleteCollaborators _ => StatusResponse
  | InsertCollaborators _ => ErrorResponse
  end.

(** The promise of a request settles with a payload or is rejected. *)
Inductive Reply (rq : Request) : Type :=
| Resolved (p : Payload rq)
| Rejected (e : ErrorValue).
Arguments Resolved {rq} & p.
Arguments Rejected {rq} e.

(** ** Asynchronous functions

    A call of an [async] function runs up to its first [await] and hands
    control back.  [Await rq s k] is that point: the request [rq] has been
    sent, the store is [s], and [k] resumes the function with the reply and
    with the store as it is at that later time.  [Fork child parent] records
    a call that is not awaited: [child] is what remains of the callee after
    its synchronous part, [parent] goes on from the store the callee left. *)
Inductive Task (A : Type) : Type :=
| Return (a : A) (s : Store)
| Throw (e : ErrorValue) (s : Store)
| Await (rq : Request) (s : Store) (k : Reply rq -> Store -> Task A)
| Fork (child : Task unit) (parent : Task A).
Arguments Return {A} a s.
Arguments Throw {A} e s.
Arguments Await {A} rq s k.
Arguments Fork {A} child parent.

(** The store when control returns to the caller. *)
Fixpoint store_of {A : Type} (t : Task A) : Store :=
  match t with
  | Return _ s | Throw _ s | Await _ s _ => s
  | Fork _ p => store_of p
  end.

(** The requests sent before control returns to the caller. *)
Fixpoint dispatched {A : Type} (t : Task A) : list Request :=
  match t with
  | Return _ _ | Throw _ _ => []
  | Await rq _ _ => [rq]
  | Fork c p => dispatched c ++ dispatched p
  end.

(** [await t] followed by [k]. *)
Fixpoint await {A B : Type} (t : Task A) (k : A -> Store -> Task B) : Task B :=
  match t with
  | Return a s => k a s
  | Throw e s => Throw e s
  | Await rq s k' => Await rq s (fun r s' => await (k' r s') k)
  | Fork c p => Fork c (await p k)
  end.

(** [try { t } catch (e) { h e }] *)
Fixpoint try_catch {A : Type} (t : Task A) (h : ErrorValue -> Store -> Task A) : Task A :=
  match t with
  | Return a s => Return a s
  | Throw e s => h e s
  | Await rq s k => Await rq s (fun r s' => try_catch (k r s') h)
  | Fork c p => Fork c (try_catch p h)
  end.

(** [try { t } finally { f }], for a block [f] that only assigns refs. *)
Fixpoint finally {A : Type} (t : Task A) (f : Store -> Store) : Task A :=
  match t with
  | Return a s => Return a (f s)
  | Throw e s => Throw e (f s)
  | Await rq s k => Await rq s (fun r s' => finally (k r s') f)
  | Fork c p => Fork c (finally p f)
  end.

(** A call without [await]. *)
Definition fork {A : Type} (child : Store -> Task unit) (k : Store -> Task A)
    (s : Store) : Task A :=
  let c := child s in Fork c (k (store_of c)).

(** One call followed from start to finish against a gateway that answers
    each request, with no other activity on the store in between; the
    calls it left un-awaited stay pending. *)
Definition Gateway : Type := forall rq : Request, Reply rq.

Inductive Completion (A : Type) : Type :=
| Returned (a : A)
| Threw (e : ErrorValue).
Arguments Returned {A} a.
Arguments Threw {A} e.

Fixpoint run {A : Type} (g : Gateway) (t : Task A) : Completion A * Store :=
  match t with
  | Return a s => (Returned a, s)
  | Throw e s => (Threw e, s)
  | Await rq s k => run g (k (g rq) s)
  | Fork _ p => run g p
  end.

(** The requests sent by the call and by the synchronous part of the calls
    it did not await, in order. *)
Fixpoint requests {A : Type} (g : Gateway) (t : Task A) : list Request :=
  match t with
  | Return _ _ | Throw _ _ => []
  | Await rq s k => rq :: requests g (k (g rq) s)
  | Fork c p => dispatched c ++ requests g p
  end.

Definition result {A : Type} (g : Gateway) (t : Task A) : Completion A := fst (run g t).
Definition final {A : Type} (g : Gateway) (t : Task A) : Store := snd (run g t).

(** ** Error handling *)

(** [typeof error === "object" || error.message] holds for every object and
    for no string: a string has no [message]. *)
Definition handleDocumentError (e : ErrorValue) (s : Store) : Store :=
  console_error e
    match e with
    | EObj m =>
        push_toast (addError "Document error" m)
          (set_errors (<["email" := m]> (errors s)) s)
    | EStr _ => s
    end.

Definition resetErrors (s : Store) : Store := set_errors ∅ s.

Definition resetDocuments (s : Store) : Store := set_documents [] s.

(** ** Numbers

    A JavaScript number is a double.  The whole numbers up to 2^53 are all
    doubles; beyond, the doubles of the size of [a] are the multiples of
    [ulp a].  The sum of two whole numbers is the exact sum rounded to the
    nearest double, ties to the even significand.  (Sums that overflow to
    [Infinity] do not arise from adding 1 or 9 to a finite double.) *)
Definition ulp (a : Z) : Z := 2 ^ (Z.log2 a - 52).

Definition nearestDouble (z : Z) : Z :=
  let a := Z.abs z in
  if a <=? 2 ^ 53 then z
  else
    let u := ulp a in
    let q := a / u in
    let r := a mod u in
    let m :=
      if 2 * r <? u then q
      else if u <? 2 * r then q + 1
      else if Z.even q then q else q + 1 in
    Z.sgn z * (m * u).

Definition js_add (a b : Z) : Z := nearestDouble (a + b).

(** The whole number is one a JavaScript number can hold. *)
Definition is_double (z : Z) : Prop := nearestDouble z = z.

Arguments nearestDouble : simpl never.
Arguments js_add : simpl never.

(** ** Pagination *)

(** The callback of [watch(documents, ...)], given the new value [n] of the
    computed collection. *)
Definition watch_documents (n : list Document) (s : Store) : Store :=
  match totalDocuments s with
  | Some total =>
      if Z.of_nat (List.length n) =? total then set_limitReached true s else s
  | None => s
  end.

(** The watcher as it fires after a change of the collection. *)
Definition recomputeLimit (s : Store) : Store := watch_documents (documents s) s.

Definition getDocumentCount (s : Store) : Task unit :=
  Await CountDocuments s (fun r s =>
    match r with
    | Rejected e => Throw e s
    | Resolved p =>
        let s :=
          match c_error p with
          | Some _ => handleDocumentError (EStr "Trouble getting document count") s
          | None => s
          end in
        match count p with
        | Some c =>
            if c =? 0 then Return tt s
            else
              let s := set_totalDocuments (Some c) s in
              Return tt (if perPage <? c then set_limitReached false s else s)
        | None => Return tt s
        end
    end).

Definition getDocuments (s : Store) : Task unit :=
  let s := set_loadingAll true s in
  (if pageNumber s =? 1 then fork getDocumentCount else fun k => k)
    (fun s =>
      let s := resetErrors s in
      finally
        (try_catch
          (Await (GetPublicDocuments (order (params s)) (range (params s))
                    (filters (params s))) s
            (fun r s =>
              match r with
              | Rejected e => Throw e s
              | Resolved p =>
                  let s :=
                    match r_error p with
                    | Some e => handleDocumentError (thrown e) s
                    | None => s
                    end in
                  match data p with
                  | Some rows => Return tt (set_documents (_documents s ++ rows) s)
                  | None => Return tt s
                  end
              end))
          (fun e s => Return tt (handleDocumentError e s)))
        (fun s => set_loadingNextPage false (set_loadingAll false s)))
    s.

(** [range.to + 1], [s + (perPage - 1)] and [pageNumber++] are sums of
    doubles; [perPage - 1] itself is the exact 9. *)
Definition nextPage (s : Store) : Task unit :=
  if limitReached s then Return tt s
  else
    let s := set_loadingNextPage true s in
    let s_ := js_add (to (range (params s))) 1 in
    let s := set_pageNumber (js_add (pageNumber s) 1) s in
    let s :=
      set_params {| range := {| from := s_; to := js_add s_ (perPage - 1) |};
                    filters := filters (params s);
                    order := order (params s) |} s in
    await (getDocuments s) (fun _ s => Return tt s).

(** ** Reading the documents of the signed-in user *)

Definition userDocuments {rq : Request} (response : Payload rq -> RowsResponse)
    (r : Reply rq) (s : Store) : Task (Js (list Document)) :=
  match r with
  | Rejected e => Throw e s
  | Resolved p =>
      match r_error (response p) with
      | Some e => Return JNull (handleDocumentError (thrown e) s)
      | None =>
          match data (response p) with
          | Some rows =>
              Return (JVal (List.map (updateDocumentTagsAndCategory s) rows)) s
          | None => Return JNull s
          end
      end
  end.

(** The [default] branch of the switch cannot be reached from a value of
    type [GetDocumentsCriteria]. *)
Definition getUserDocuments (criteria : GetDocumentsCriteria) (s : Store)
    : Task (Js (list Document)) :=
  let s := set_loadingAll true s in
  let s := set_documents [] s in
  let s := resetErrors s in
  finally
    (try_catch
      match criteria with
      | mine =>
          Await GetMyDocuments s (@userDocuments GetMyDocuments (fun p => p))
      | private =>
          Await GetMyPrivateDocuments s
            (@userDocuments GetMyPrivateDocuments (fun p => p))
      | drafts =>
          Await GetMyDraftDocuments s
            (@userDocuments GetMyDraftDocuments (fun p => p))
      | sharedWithMe =>
          Await GetDocumentsSharedWithMe s
            (@userDocuments GetDocumentsSharedWithMe (fun p => p))
      end
      (fun e s => Return JUndefined (handleDocumentError e s)))
    (set_loadingAll false).

(** ** Collaborators *)

(** [l.splice(l.findIndex((c) => c === x), 1)] when [x] occurs in [l]. *)
Fixpoint spliceFirst (x : string) (l : list string) : list string :=
  match l with
  | [] => []
  | c :: l' => if String.eqb c x then l' else c :: spliceFirst x l'
  end.

Definition includes (l : list string) (x : string) : bool :=
  existsb (fun c => String.eqb c x) l.

(** [Array.from(new Set(l))]: the elements in the order of their first
    occurrence; [seen] holds what the set already contains. *)
Fixpoint setFrom (seen l : list string) : list string :=
  match l with
  | [] => []
  | x :: l' =>
      if includes seen x then setFrom seen l' else x :: setFrom (x :: seen) l'
  end.

(** The array after the optional [splice], which is also what the caller's
    array holds afterwards. *)
Definition withoutUser (u : option User) (collaborators : list string) : list string :=
  match u with
  | Some user_ =>
      if includes collaborators (u_id user_)
      then spliceFirst (u_id user_) collaborators
      else collaborators
  | None => collaborators
  end.

Definition collaboratorsPayload (u : option User) (documentId : string)
    (collaborators : list string) : list CollaboratorRow :=
  List.map (fun uid => {| document_id := documentId; cr_user_id := uid |})
    (setFrom [] (withoutUser u collaborators)).

Definition insertCollaborators (documentId : string) (collaborators : list string)
    (s : Store) : Task unit :=
  let payload := collaboratorsPayload (auth_user s) documentId collaborators in
  try_catch
    (Await (InsertCollaborators payload) s (fun r s =>
      match r with
      | Rejected e => Throw e s
      | Resolved p =>
          match e_error p with
          | Some e => Return tt (handleDocumentError (thrown e) s)
          | None => Return tt s
          end
      end))
    (fun e s => Return tt (handleDocumentError e s)).

Definition updateCollaborators (documentId : string) (collaborators : list string)
    (s : Store) : Task unit :=
  Await (DeleteCollaborators documentId) s (fun r s =>
    match r with
    | Rejected e => Throw e s
    | Resolved p =>
        let s :=
          if status p =? 204 then s
          else handleDocumentError (EStr "Error removing collaborators ( 1 )") s in
        insertCollaborators documentId collaborators s
    end).

(** ** Files *)

(** A string is truthy unless it is empty. *)
Definition nonEmpty (s : string) : bool := negb (String.eqb s "").

Section Upload.

(** [generateSlug] comes from utils/generateSlug, which is not part of the
    sources; the store only passes its result on. *)
Variable generateSlug : string -> string.

Definition uploadFile (file : option File) (s : Store) : Task (Js string) :=
  match file with
  | None =>
      Return JNull
        (set_errors (<["document" := Some "No file selected"]> (errors s)) s)
  | Some f =>
      let s := set_uploading true s in
      finally
        (try_catch
          (Await (StorageUpload ("public/" ++ generateSlug (file_name f)) f) s
            (fun r s =>
              match r with
              | Rejected e => Throw e s
              | Resolved p =>
                  match p_error p with
                  | Some _ => Return JNull s
                  | None =>
                      match p_data p with
                      | Some path => Return (JVal path) s
                      | None => Return JUndefined s
                      end
                  end
              end))
          (fun e s => Return JUndefined (handleDocumentError e s)))
        (set_uploading false)
  end.

Definition with_url (u : string) (form : DocumentForm) : DocumentForm :=
  {| f_id := f_id form; f_name := f_name form; f_details := f_details form;
     f_url := u; f_is_draft := f_is_draft form;
     f_is_public := f_is_public form; f_tags := f_tags form;
     f_category := f_category form |}.

(** What reading [data[0].id] throws when [data] is empty. *)
Definition typeError : ErrorValue :=
  EObj (Some "Cannot read properties of undefined (reading 'id')").

Definition createDocument (file : option File) (form : DocumentForm)
    (collaborators : list string) (s : Store) : Task (Js (list Document)) :=
  let s := set_loadingSingle true s in
  finally
    (try_catch
      match file with
      | None =>
          Return (JBool false)
            (set_errors (<["document" := Some "Document not added."]> (errors s)) s)
      | Some f =>
          await (uploadFile (Some f) s) (fun path s =>
            match path, auth_user s with
            | JVal path, Some user_ =>
                if nonEmpty path then
                  let payload :=
                    {| ip_form := with_url path form;
                       ip_file_type := file_type f;
                       ip_file_size := file_size f;
                       ip_original_name := file_name f;
                       ip_user_id := u_id user_ |} in
                  Await (InsertDocument payload) s (fun r s =>
                    match r with
                    | Rejected e => Throw e s
                    | Resolved p =>
                        let s :=
                          match r_error p with
                          | Some e => handleDocumentError (thrown e) s
                          | None => s
                          end in
                        match data p with
                        | Some rows =>
                            let s :=
                              push_toast
                                (addSuccess "Document created!"
                                   "Your document has been successfully uploaded and will be displayed on the docs list if it is public")
                                s in
                            match collaborators with
                            | [] => Return (JVal rows) s
                            | _ :: _ =>
                                match rows with
                                | d :: _ =>
                                    fork (insertCollaborators (id d) collaborators)
                                      (fun s => Return (JVal rows) s) s
                                | [] => Throw typeError s
                                end
                            end
                        | None => Return JNull s
                        end
                    end)
                else Return (JBool false) s
            | _, _ => Return (JBool false) s
            end)
      end
      (fun e s => Return JUndefined (handleDocumentError e s)))
    (set_loadingSingle false).

End Upload.

Definition updateFile (url_ : string) (file : File) (s : Store) : Task (Js string) :=
  try_catch
    (Await (StorageUpdate url_ file) s (fun r s =>
      match r with
      | Rejected e => Throw e s
      | Resolved p =>
          match p_error p with
          | Some e => Return JNull (handleDocumentError (thrown e) s)
          | None =>
              match p_data p with
              | Some path => Return (JVal path) s
              | None => Return JNull s
              end
          end
      end))
    (fun e s => Return JUndefined (handleDocumentError e s)).

(** Returns [true], [false], or [undefined] after a rejection. *)
Definition deleteFile (path : string) (s : Store) : Task (Js unit) :=
  try_catch
    (Await (StorageRemove [path]) s (fun r s =>
      match r with
      | Rejected e => Throw e s
      | Resolved p =>
          let s :=
            match rm_error p with
            | Some e => handleDocumentError (thrown e) s
            | None => s
            end in
          match rm_data p with
          | Some _ => Return (JBool true) s
          | None => Return (JBool false) s
          end
      end))
    (fun e s => Return JUndefined (handleDocumentError e s)).

(** ** Single documents *)

(** The row of the single-document query; its joined [collaborators] column
    is read by no action of the store and is left out of [Document]. *)
Definition getDocument (id_ : string) (s : Store) : Task (Js Document) :=
  let s := set_loadingSingle true s in
  let s := resetErrors s in
  finally
    (try_catch
      (Await (SelectDocument id_) s (fun r s =>
        match r with
        | Rejected e => Throw e s
        | Resolved p =>
            let s :=
              match r_error p with
              | Some e => handleDocumentError (thrown e) s
              | None => s
              end in
            match data p with
            | Some (d :: _) => Return (JVal d) s
            | _ => Return JNull s
            end
        end))
      (fun e s => Return JUndefined (handleDocumentError e s)))
    (set_loadingSingle false).

Definition noFileDetails : FileDetails :=
  {| fd_file_size := None; fd_file_type := None; fd_original_name := None;
     fd_url := None |}.

(** [fileDetails] after the branch for a replacement file; [url_] is what
    [updateFile] returned. *)
Definition fileDetailsOf (file : File) (url_ : Js string) : FileDetails :=
  {| fd_file_size := Some (file_size file);
     fd_file_type := Some (file_type file);
     fd_original_name := Some (file_name file);
     fd_url := match url_ with
               | JVal u => if nonEmpty u then Some u else None
               | _ => None
               end |}.

Definition updatePayload (data_ : DocumentForm) (fd : FileDetails) (now : string)
    : UpdatePayload :=
  {| up_form := match fd_url fd with
                | Some u => with_url u data_
                | None => data_
                end;
     up_file_size := fd_file_size fd;
     up_file_type := fd_file_type fd;
     up_original_name := fd_original_name fd;
     up_updated_at := now |}.

Definition orElse {A : Type} (o d : option A) : option A :=
  match o with Some _ => o | None => d end.

(** [{ ...doc, ...payload }] *)
Definition merged (doc : Document) (payload : UpdatePayload) : Document :=
  let form := up_form payload in
  {| category := f_category form; created_at := created_at doc;
     details := f_details form;
     d_file_size := orElse (up_file_size payload) (d_file_size doc);
     d_file_type := orElse (up_file_type payload) (d_file_type doc);
     id := match f_id form with Some i => i | None => id doc end;
     is_draft := f_is_draft form; is_public := f_is_public form;
     last_accessed_at := last_accessed_at doc; d_name := f_name form;
     tags := f_tags form; updated_at := up_updated_at payload;
     url := f_url form; user_id := user_id doc;
     original_name := orElse (up_original_name payload) (original_name doc);
     comments := comments doc; user := user doc |}.

(** [now] is the reading of the clock, [new Date().toISOString()], taken
    when the payload is built.  [getDocument] yields a row, [null] or
    [undefined], so the last branch of the first match stands for [!doc]. *)
Definition updateDocument (now : string) (id_ : string) (data_ : DocumentForm)
    (file : option File) (collaborators : list string) (s : Store)
    : Task (Js Document) :=
  let s := set_loadingSingle true s in
  let s := set_error error_null s in
  finally
    (try_catch
      (await (getDocument id_ s) (fun doc s =>
        match doc with
        | JVal doc =>
            await
              match file with
              | Some f =>
                  await (updateFile (url doc) f s) (fun url_ s =>
                    Return (fileDetailsOf f url_) s)
              | None => Return noFileDetails s
              end
              (fun fileDetails s =>
                let payload := updatePayload data_ fileDetails now in
                Await (UpdateDocument payload (id doc)) s (fun r s =>
                  match r with
                  | Rejected e => Throw e s
                  | Resolved p =>
                      if status p =? 204 then
                        let s :=
                          push_toast
                            (addSuccess "Update successful"
                               "Document updated successfully") s in
                        await (updateCollaborators id_ collaborators s)
                          (fun _ s => Return (JVal (merged doc payload)) s)
                      else
                        Return (JBool false)
                          (handleDocumentError
                             (EStr "Document not succcessfully updated") s)
                  end))
        | _ => Return (JBool false) s
        end))
      (fun e s => Return JUndefined (handleDocumentError e s)))
    (set_loadingSingle false).

Definition deleteDocument (id_ : string) (s : Store) : Task (Js unit) :=
  let s := set_loadingSingle true s in
  let s := set_error error_null s in
  finally
    (try_catch
      (await (getDocument id_ s) (fun doc s =>
        match doc with
        | JVal doc =>
            await (deleteFile (url doc) s) (fun success s =>
              let s :=
                match success with
                | JBool true => s
                | _ =>
                    (* the literal { error: ... } has no message *)
                    handleDocumentError (EObj None) s
                end in
              Await (DeleteDocument (id doc)) s (fun r s =>
                match r with
                | Rejected e => Throw e s
                | Resolved p =>
                    if status p =? 204 then
                      Return (JBool true)
                        (set_documents
                           (List.filter
                              (fun d => negb (String.eqb (id d) id_))
                              (documents s))
                           s)
                    else
                      Return (JBool false)
                        (handleDocumentError
                           (EStr "Document not succcessfully deleted") s)
                end))
        | _ => Return (JBool false) s
        end))
      (fun e s => Return JUndefined (handleDocumentError e s)))
    (set_loadingSingle false).

(** ** Filters and params *)

(** Both run [getDocuments] without awaiting it. *)
Definition resetFilters (s : Store) : Task unit :=
  let s :=
    set_params {| range := range (params s); filters := None;
                  order := order (params s) |} s in
  let s := resetDocuments s in
  fork getDocuments (fun s => Return tt s) s.

Definition updateFilters (filters_ : Filters) (s : Store) : Task unit :=
  let s :=
    set_params {| range := range (params s); filters := Some filters_;
                  order := order (params s) |} s in
  let s := resetDocuments s in
  fork getDocuments (fun s => Return tt s) s.

Definition resetParams (s : Store) : Store :=
  set_params {| range := {| from := 0; to := perPage - 1 |};
                filters := None;
                order := [(by_created_at, false)] |} s.

(** ** Invariants of asynchronous functions

    [preserves P t]: [P] holds of the store whenever [t] hands control
    back, provided it holds whenever [t] is resumed.  The store [t] is
    resumed with is arbitrary, so the property stands whatever else ran
    while [t] was waiting, as long as that kept [P] too. *)
Fixpoint preserves {A : Type} (P : Store -> Prop) (t : Task A) : Prop :=
  match t with
  | Return _ s | Throw _ s => P s
  | Await _ s k => P s /\ forall r s', P s' -> preserves P (k r s')
  | Fork c p => preserves P c /\ preserves P p
  end.

(** ** Sample data *)

Definition alice : User :=
  {| u_id := "u1"; u_email := "alice@example.org"; u_name := Some "Alice";
     u_avatar_url := None |}.

Definition sampleDocument (i : string) (c : option string) (ts : list string)
    : Document :=
  {| category := c; created_at := "2024-01-01T00:00:00.000Z"; details := None;
     d_file_size := Some 500000; d_file_type := Some "application/pdf";
     id := i; is_draft := false; is_public := true; last_accessed_at := None;
     d_name := "Report"; tags := ts;
     updated_at := "2024-01-01T00:00:00.000Z"; url := "public/report";
     user_id := "u1"; original_name := Some "report.pdf"; comments := None;
     user := Some alice |}.

Definition sampleTags : list Label :=
  [ {| slug := "t1"; name := "Tag One" |}; {| slug := "t2"; name := "Tag Two" |} ].

Definition sampleCategories : list Label :=
  [ {| slug := "c1"; name := "Category One" |} ].

(** Labels where the name of one entry is the slug of another. *)
Definition chainedTags : list Label :=
  [ {| slug := "a"; name := "b" |}; {| slug := "b"; name := "c" |} ].

Definition sampleStore : Store := initial (Some alice) sampleTags sampleCategories.

(** ** Conditions used in the statements *)

(** No display name is itself resolved to something else. *)
Definition stable_names (labels : list Label) : Prop :=
  forall l, In l labels -> lookupName labels (name l) = name l.


(** The fields of a document the resolver does not touch. *)
Definition same_but_labels (d r : Document) : Prop :=
  created_at r = created_at d /\ details r = details d /\
  d_file_size r = d_file_size d /\ d_file_type r = d_file_type d /\
  id r = id d /\ is_draft r = is_draft d /\ is_public r = is_public d /\
  last_accessed_at r = last_accessed_at d /\ d_name r = d_name d /\
  updated_at r = updated_at d /\ url r = url d /\ user_id r = user_id d /\
  original_name r = original_name d /\ comments r = comments d /\
  user r = user d.

(** A store whose tag names chain into other slugs. *)
Definition chainedStore : Store := initial (Some alice) chainedTags [].

(** ** Sample gateways *)

(** Every query finds nothing and every mutation succeeds. *)
Definition quietGateway : Gateway := fun rq =>
  match rq as r return Reply r with
  | GetPublicDocuments o r f => @Resolved (GetPublicDocuments o r f) {| data := Some []; r_error := None |}
  | GetMyDocuments => @Resolved GetMyDocuments {| data := Some []; r_error := None |}
  | GetMyPrivateDocuments => @Resolved GetMyPrivateDocuments {| data := Some []; r_error := None |}
  | GetMyDraftDocuments => @Resolved GetMyDraftDocuments {| data := Some []; r_error := None |}
  | GetDocumentsSharedWithMe => @Resolved GetDocumentsSharedWithMe {| data := Some []; r_error := None |}
  | CountDocuments => @Resolved CountDocuments {| count := None; c_error := None |}
  | StorageUpload path f => @Resolved (StorageUpload path f) {| p_data := Some path; p_error := None |}
  | StorageUpdate path f => @Resolved (StorageUpdate path f) {| p_data := Some path; p_error := None |}
  | StorageRemove paths => @Resolved (StorageRemove paths) {| rm_data := Some paths; rm_error := None |}
  | InsertDocument p => @Resolved (InsertDocument p) {| data := Some []; r_error := None |}
  | SelectDocument i => @Resolved (SelectDocument i) {| data := Some []; r_error := None |}
  | UpdateDocument p i => @Resolved (UpdateDocument p i) {| status := 204 |}
  | DeleteDocument i => @Resolved (DeleteDocument i) {| status := 204 |}
  | DeleteCollaborators i => @Resolved (DeleteCollaborators i) {| status := 204 |}
  | InsertCollaborators p => @Resolved (InsertCollaborators p) {| e_error := None |}
  end.

(** The catalog holds [n] public documents. *)
Definition countGateway (n : Z) : Gateway := fun rq =>
  match rq as r return Reply r with
  | CountDocuments => @Resolved CountDocuments {| count := Some n; c_error := None |}
  | r => quietGateway r
  end.

(** The store once a count of five has come back: the total is known and
    nothing has been loaded. *)
Definition countedStore : Store :=
  snd (run (countGateway 5) (getDocumentCount sampleStore)).

(** The signed-in user listed twice among the collaborators. *)
Definition repeatedSelf : list string := ["u1"; "u2"; "u1"].

(** The range is one page wide, as [initial], [resetParams] and a
    [nextPage] whose sums are exact leave it. *)
Definition page_window (s : Store) : Prop :=
  to (range (params s)) = from (range (params s)) + (perPage - 1).

Definition firstPage : Range := {| from := 0; to := perPage - 1 |}.

(** The end of the range and the page number are small enough for the
    sums of a page advance to be exact. *)
Definition safe_cursor (s : Store) : Prop :=
  Z.abs (to (range (params s))) + perPage <= 2 ^ 53 /\
  Z.abs (pageNumber s) + 1 <= 2 ^ 53.

(** The store once a count of twenty-five has come back, and once the
    second page has then been asked for. *)
Definition readyStore : Store :=
  snd (run (countGateway 25) (getDocumentCount sampleStore)).

Definition pagedStore : Store := store_of (nextPage readyStore).

(** A store whose range ends at the last whole number below 2^53, on the
    page of that number, and a store whose range is wider than a page. *)
Definition edgeStore : Store :=
  set_pageNumber (2 ^ 53)
    (set_params {| range := {| from := 2 ^ 53 - 10; to := 2 ^ 53 - 1 |};
                   filters := filters (params readyStore);
                   order := order (params readyStore) |} readyStore).

Definition wideStore : Store :=
  set_params {| range := {| from := 0; to := 100 |};
                filters := filters (params readyStore);
                order := order (params readyStore) |} readyStore.

Definition sampleFilters : Filters := [("category", "c1")].

(** Properties of the store that only read the params and the page
    number. *)
Definition cursor_only (P : Store -> Prop) : Prop :=
  forall s s', params s' = params s -> pageNumber s' = pageNumber s -> P s -> P s'.


(** What the gateway answers to the query of a criteria. *)
Definition userReply (g : Gateway) (criteria : GetDocumentsCriteria)
    : RowsResponse + ErrorValue :=
  match criteria with
  | mine =>
      match g GetMyDocuments with Resolved p => inl p | Rejected e => inr e end
  | private =>
      match g GetMyPrivateDocuments with Resolved p => inl p | Rejected e => inr e end
  | drafts =>
      match g GetMyDraftDocuments with Resolved p => inl p | Rejected e => inr e end
  | sharedWithMe =>
      match g GetDocumentsSharedWithMe with Resolved p => inl p | Rejected e => inr e end
  end.

Definition report : Document := sampleDocument "d1" (Some "c1") ["t1"].
Definition minutes : Document := sampleDocument "d2" None ["t2"; "misc"].

(** The catalog holds [report] and [minutes]; every mutation succeeds. *)
Definition catalogGateway : Gateway := fun rq =>
  match rq as r return Reply r with
  | GetPublicDocuments o r f =>
      @Resolved (GetPublicDocuments o r f)
        {| data := Some [report; minutes]; r_error := None |}
  | GetMyDocuments =>
      @Resolved GetMyDocuments {| data := Some [report]; r_error := None |}
  | SelectDocument i =>
      @Resolved (SelectDocument i)
        {| data := Some (List.filter (fun d => String.eqb (id d) i) [report; minutes]);
           r_error := None |}
  | CountDocuments => @Resolved CountDocuments {| count := Some 2; c_error := None |}
  | r => quietGateway r
  end.

(** The store after the first page of the catalog has been loaded. *)
Definition loadedStore : Store := snd (run catalogGateway (getDocuments sampleStore)).

(** The store after the first page of the catalog has been loaded a second
    time: every document is held twice. *)
Definition doubledStore : Store := snd (run catalogGateway (getDocuments loadedStore)).

(** The catalog as before, but every row deletion is rejected. *)
Definition droppedGateway : Gateway := fun rq =>
  match rq as r return Reply r with
  | DeleteDocument i => @Rejected (DeleteDocument i) (EObj (Some "Failed to fetch"))
  | r => catalogGateway r
  end.

(** The catalog answers 500 to every row update and row deletion. *)
Definition refusingGateway : Gateway := fun rq =>
  match rq as r return Reply r with
  | UpdateDocument q i => @Resolved (UpdateDocument q i) {| status := 500 |}
  | DeleteDocument i => @Resolved (DeleteDocument i) {| status := 500 |}
  | r => catalogGateway r
  end.

Definition sampleForm : DocumentForm :=
  {| f_id := None; f_name := "Minutes"; f_details := None;
     f_url := "public/report"; f_is_draft := false; f_is_public := true;
     f_tags := ["t2"]; f_category := Some "c1" |}.

Definition sampleNow : string := "2024-02-02T10:00:00.000Z".

(** ** Conditions used for the remaining actions *)

(** The stores a call is suspended with, each with the request it waits
    for, in order. *)
Fixpoint suspensions {A : Type} (g : Gateway) (t : Task A) : list (Request * Store) :=
  match t with
  | Return _ _ | Throw _ _ => []
  | Await rq s k => (rq, s) :: suspensions g (k (g rq) s)
  | Fork _ p => suspensions g p
  end.

(** The call completes by returning, it does not reject. *)
Definition returns {A : Type} (g : Gateway) (t : Task A) : Prop :=
  exists a, result g t = Returned a.

(** The keys the store writes in the error map. *)
Definition known_keys (s : Store) : Prop :=
  forall k : string, k <> "email" -> k <> "document" -> errors s !! k = None.

(** What [updateFile] hands back, read off the reply of the storage. *)
Definition replacedPath (g : Gateway) (url_ : string) (f : File) : Js string :=
  match g (StorageUpdate url_ f) with
  | Resolved q =>
      match p_error q, p_data q with
      | None, Some path => JVal path
      | _, _ => JNull
      end
  | Rejected _ => JUndefined
  end.

(** The payload [updateDocument] builds for a document found as [doc]. *)
Definition sentPayload (g : Gateway) (now : string) (data_ : DocumentForm)
    (file : option File) (doc : Document) : UpdatePayload :=
  updatePayload data_
    match file with
    | Some f => fileDetailsOf f (replacedPath g (url doc) f)
    | None => noFileDetails
    end
    now.

(** The gateway cannot be reached: every request is rejected. *)
Definition offlineGateway : Gateway := fun rq =>
  Rejected (EObj (Some "Failed to fetch")).

(** The catalog as before, but the collaborators of a document cannot be
    removed. *)
Definition lockedGateway : Gateway := fun rq =>
  match rq as r return Reply r with
  | DeleteCollaborators i =>
      @Rejected (DeleteCollaborators i) (EObj (Some "permission denied"))
  | r => catalogGateway r
  end.

(** The collection holds exactly [l]. *)
Definition collection_is (l : list Document) (s : Store) : Prop :=
  _documents s = l.

(** ** More sample data *)

Definition sampleFile : File :=
  {| file_name := "minutes.pdf"; file_type := "application/pdf"; file_size := 500000 |}.

(** A slug function that keeps the name. *)
Definition sameName (n : string) : string := n.

(** The storage is full: every storage call is answered with an error. *)
Definition fullGateway : Gateway := fun rq =>
  match rq as r return Reply r with
  | StorageUpload path f =>
      @Resolved (StorageUpload path f)
        {| p_data := None; p_error := Some {| ge_message := "quota exceeded" |} |}
  | StorageUpdate path f =>
      @Resolved (StorageUpdate path f)
        {| p_data := None; p_error := Some {| ge_message := "quota exceeded" |} |}
  | StorageRemove paths =>
      @Resolved (StorageRemove paths)
        {| rm_data := Some []; rm_error := Some {| ge_message := "quota exceeded" |} |}
  | r => catalogGateway r
  end.

(** The collaborators of a document cannot be removed, and the gateway
    says so with a status. *)
Definition conflictGateway : Gateway := fun rq =>
  match rq as r return Reply r with
  | DeleteCollaborators i => @Resolved (DeleteCollaborators i) {| status := 409 |}
  | r => catalogGateway r
  end.

(** The query for one's own documents comes back with rows and an error. *)
Definition deniedGateway : Gateway := fun rq =>
  match rq as r return Reply r with
  | GetMyDocuments =>
      @Resolved GetMyDocuments
        {| data := Some [report];
           r_error := Some {| ge_message := "permission denied" |} |}
  | r => catalogGateway r
  end.

(** The insert of a document returns the new row. *)
Definition insertingGateway : Gateway := fun rq =>
  match rq as r return Reply r with
  | InsertDocument p =>
      @Resolved (InsertDocument p) {| data := Some [report]; r_error := None |}
  | r => quietGateway r
  end.

(** All twenty-five documents of the catalog are loaded. *)
Definition fullStore : Store := set_documents (List.repeat report 25) readyStore.
(** * Properties *)

(** ** Reasoning about asynchronous functions *)

Section Preserves.

Variable P : Store -> Prop.

Lemma preserves_store_of {A : Type} (t : Task A) :
  preserves P t -> P (store_of t).
Proof.
  induction t as [A a s|A e s|A rq s k IH|A c IHc p IHp]; simpl; intros H.
  - exact H.
  - exact H.
  - exact (proj1 H).
  - apply IHp. exact (proj2 H).
Qed.

Lemma preserves_final {A : Type} (g : Gateway) (t : Task A) :
  preserves P t -> P (final g t).
Proof.
  unfold final.
  induction t as [A a s|A e s|A rq s k IH|A c IHc p IHp]; simpl; intros H.
  - exact H.
  - exact H.
  - destruct H as [Hs Hk]. apply IH. now apply Hk.
  - apply IHp. exact (proj2 H).
Qed.

Lemma preserves_await {A B : Type} (t : Task A) (k : A -> Store -> Task B) :
  preserves P t ->
  (forall a s, P s -> preserves P (k a s)) ->
  preserves P (await t k).
Proof.
  intros Ht Hk.
  induction t as [A a s|A e s|A rq s k' IH|A c IHc p IHp]; simpl in *.
  - now apply Hk.
  - exact Ht.
  - destruct Ht as [Hs Hr]. split; [exact Hs|]. intros r s' Hs'.
    apply IH; [now apply Hr | exact Hk].
  - destruct Ht as [Hc Hp]. split; [exact Hc|]. now apply IHp.
Qed.

Lemma preserves_try_catch {A : Type} (t : Task A)
    (h : ErrorValue -> Store -> Task A) :
  preserves P t ->
  (forall e s, P s -> preserves P (h e s)) ->
  preserves P (try_catch t h).
Proof.
  intros Ht Hh.
  induction t as [A a s|A e s|A rq s k' IH|A c IHc p IHp]; simpl in *.
  - exact Ht.
  - now apply Hh.
  - destruct Ht as [Hs Hr]. split; [exact Hs|]. intros r s' Hs'.
    apply IH; [now apply Hr | exact Hh].
  - destruct Ht as [Hc Hp]. split; [exact Hc|]. now apply IHp.
Qed.

Lemma preserves_finally {A : Type} (t : Task A) (f : Store -> Store) :
  preserves P t ->
  (forall s, P s -> P (f s)) ->
  preserves P (finally t f).
Proof.
  intros Ht Hf.
  induction t as [A a s|A e s|A rq s k' IH|A c IHc p IHp]; simpl in *.
  - now apply Hf.
  - now apply Hf.
  - destruct Ht as [Hs Hr]. split; [exact Hs|]. intros r s' Hs'.
    apply IH. now apply Hr.
  - destruct Ht as [Hc Hp]. split; [exact Hc|]. now apply IHp.
Qed.

Lemma preserves_fork {A : Type} (child : Store -> Task unit)
    (k : Store -> Task A) (s : Store) :
  preserves P (child s) ->
  (forall s', P s' -> preserves P (k s')) ->
  preserves P (fork child k s).
Proof.
  intros Hc Hk. unfold fork. simpl. split; [exact Hc|].
  apply Hk. now apply preserves_store_of.
Qed.

(** The handler and the assignments it is made of keep every property
    that does not read what they write. *)
Hypothesis P_errors : forall v s, P s -> P (set_errors v s).
Hypothesis P_toast : forall t s, P s -> P (push_toast t s).
Hypothesis P_console : forall e s, P s -> P (console_error e s).

Lemma preserves_handleDocumentError (e : ErrorValue) (s : Store) :
  P s -> P (handleDocumentError e s).
Proof.
  intros H. unfold handleDocumentError. apply P_console.
  destruct e as [str|m]; [exact H|]. apply P_toast. now apply P_errors.
Qed.

End Preserves.

(** ** Label resolver: properties *)

Lemma find_slug_some (labels : list Label) (t : string) (l : Label) :
  List.find (fun l => String.eqb (slug l) t) labels = Some l ->
  In l labels /\ slug l = t.
Proof.
  intros H. apply List.find_some in H. destruct H as [Hin Heq].
  split; [exact Hin | now apply String.eqb_eq].
Qed.

Lemma lookupName_found (labels : list Label) (t : string) (l : Label) :
  List.find (fun l => String.eqb (slug l) t) labels = Some l ->
  lookupName labels t = name l.
Proof. intros H. unfold lookupName. now rewrite H. Qed.

Lemma lookupName_absent (labels : list Label) (t : string) :
  (forall l, In l labels -> slug l <> t) -> lookupName labels t = t.
Proof.
  intros H. unfold lookupName.
  destruct (List.find _ labels) as [l|] eqn:E; [|reflexivity].
  apply find_slug_some in E. destruct E as [Hin Hs]. now apply H in Hin.
Qed.

Lemma lookupName_idempotent (labels : list Label) :
  stable_names labels ->
  forall t, lookupName labels (lookupName labels t) = lookupName labels t.
Proof.
  intros Hst t. unfold lookupName at 2 3.
  destruct (List.find _ labels) as [l|] eqn:E.
  - apply Hst. now apply find_slug_some in E.
  - unfold lookupName. now rewrite E.
Qed.

Lemma lookupCategory_idempotent (labels : list Label) :
  stable_names labels ->
  forall c, lookupCategory labels (lookupCategory labels c) = lookupCategory labels c.
Proof.
  intros Hst [t|]; simpl; [|reflexivity].
  now rewrite lookupName_idempotent.
Qed.

Lemma documents_resolved (s : Store) :
  documents s = List.map (updateDocumentTagsAndCategory s) (_documents s).
Proof. reflexivity. Qed.

Lemma resolved_tag (s : Store) (d : Document) (i : nat) (t : string) :
  tags d !! i = Some t ->
  tags (updateDocumentTagsAndCategory s d) !! i
  = Some (lookupName (tagStore_tags s) t).
Proof.
  intros H. simpl. rewrite list_lookup_fmap_Some. exists t. split; [reflexivity|].
  exact H.
Qed.

Lemma resolver_keeps_other_fields (s : Store) (d : Document) :
  same_but_labels d (updateDocumentTagsAndCategory s d).
Proof. unfold same_but_labels. simpl. repeat split. Qed.

Lemma resolver_twice (s : Store) (d : Document) :
  stable_names (tagStore_tags s) ->
  stable_names (categoryStore_categories s) ->
  updateDocumentTagsAndCategory s (updateDocumentTagsAndCategory s d)
  = updateDocumentTagsAndCategory s d.
Proof.
  intros Ht Hc. unfold updateDocumentTagsAndCategory, with_labels. simpl.
  rewrite lookupCategory_idempotent by exact Hc.
  rewrite List.map_map.
  f_equal. apply List.map_ext. intros t. now apply lookupName_idempotent.
Qed.

(** C9, as stated, fails: with the tag collection [a -> b, b -> c] the
    document tagged [a] resolves to [b], and resolving that again gives
    [c]; the resolver is not idempotent for every lookup collection. *)
Lemma resolver_not_idempotent :
  updateDocumentTagsAndCategory chainedStore
    (updateDocumentTagsAndCategory chainedStore (sampleDocument "d1" None ["a"]))
  <> updateDocumentTagsAndCategory chainedStore (sampleDocument "d1" None ["a"]).
Proof. intros H. apply (f_equal tags) in H. vm_compute in H. discriminate H. Qed.

(** C9, amended: for every document and every state of the tag and
    category collections, the resolver is defined, maps each tag slug, in
    place, to the name of the first label with that slug and to the slug
    itself when there is none, does the same for the category (keeping
    [null]), and leaves every other field alone; the computed [documents]
    is the stored collection resolved that way.  Resolving an
    already-resolved document yields the same result when no display name
    of either collection is resolved to something else. *)
Theorem resolver_lookup_passthrough (s : Store) (d : Document) :
  let r := updateDocumentTagsAndCategory s d in
  List.length (tags r) = List.length (tags d) /\
  (forall (i : nat) (t : string), tags d !! i = Some t ->
     tags r !! i =
       Some match List.find (fun l => String.eqb (slug l) t) (tagStore_tags s) with
            | Some l => name l
            | None => t
            end) /\
  category r =
    match category d with
    | Some c =>
        Some match List.find (fun l => String.eqb (slug l) c)
                     (categoryStore_categories s) with
             | Some l => name l
             | None => c
             end
    | None => None
    end /\
  same_but_labels d r /\
  documents s = List.map (updateDocumentTagsAndCategory s) (_documents s) /\
  (stable_names (tagStore_tags s) ->
   stable_names (categoryStore_categories s) ->
   updateDocumentTagsAndCategory s r = r).
Proof.
  intros r. subst r.
  split; [simpl; apply List.length_map|].
  split; [intros i t H; now apply resolved_tag|].
  split; [reflexivity|].
  split; [apply resolver_keeps_other_fields|].
  split; [reflexivity|].
  intros Ht Hc. now apply resolver_twice.
Qed.

Lemma sampleTags_stable : stable_names sampleTags.
Proof.
  intros l H. simpl in H.
  destruct H as [<-|[<-|[]]]; reflexivity.
Defined.

Lemma sampleCategories_stable : stable_names sampleCategories.
Proof.
  intros l H. simpl in H.
  destruct H as [<-|[]]; reflexivity.
Defined.

Lemma resolver_lookup_passthrough_witness :
  let d := sampleDocument "d1" (Some "c1") ["t2"; "other"] in
  let r := updateDocumentTagsAndCategory sampleStore d in
  stable_names (tagStore_tags sampleStore) /\
  stable_names (categoryStore_categories sampleStore) /\
  tags r !! 0%nat = Some "Tag Two" /\
  tags r !! 1%nat = Some "other" /\
  updateDocumentTagsAndCategory sampleStore r = r /\
  tags (updateDocumentTagsAndCategory chainedStore (sampleDocument "d1" None ["a"]))
    !! 0%nat = Some "b".
Proof.
  destruct (resolver_lookup_passthrough sampleStore
              (sampleDocument "d1" (Some "c1") ["t2"; "other"]))
    as (_ & Htags & _ & _ & _ & Hidem).
  destruct (resolver_lookup_passthrough chainedStore
              (sampleDocument "d1" None ["a"]))
    as (_ & Hchained & _).
  split; [exact sampleTags_stable |].
  split; [exact sampleCategories_stable |].
  split; [exact (Htags 0%nat "t2" eq_refl)|].
  split; [exact (Htags 1%nat "other" eq_refl)|].
  split; [exact (Hidem sampleTags_stable sampleCategories_stable)|].
  exact (Hchained 0%nat "a" eq_refl).
Defined.

(** ** Limit recomputation *)

Lemma watch_documents_unknown (s : Store) (n : list Document) :
  totalDocuments s = None -> watch_documents n s = s.
Proof. intros H. unfold watch_documents. now rewrite H. Qed.

Lemma watch_documents_frame (s : Store) (n : list Document) :
  watch_documents n s = s \/ watch_documents n s = set_limitReached true s.
Proof.
  unfold watch_documents. destruct (totalDocuments s) as [total|]; [|now left].
  destruct (_ =? _); [now right | now left].
Qed.

(** C4, as stated, fails: with a known total of five and nothing loaded,
    [limitReached] is true after the recomputation although the length of
    the collection differs from the total. *)
Lemma limit_not_iff_length_equals_total :
  totalDocuments (recomputeLimit countedStore) = Some 5 /\
  ~ (limitReached (recomputeLimit countedStore) = true <->
     Z.of_nat (List.length (documents (recomputeLimit countedStore))) = 5).
Proof.
  split; [reflexivity|].
  intros [H _]. specialize (H eq_refl). vm_compute in H. discriminate H.
Qed.

(** C4, amended: when [totalDocuments] is known, [limitReached] is true
    after the recomputation if and only if it was true before or the
    length of the collection equals [totalDocuments]; the recomputation
    sets the flag and never clears it. *)
Theorem limit_after_recomputation (s : Store) (n : list Document) (total : Z) :
  totalDocuments s = Some total ->
  (limitReached (watch_documents n s) = true <->
   limitReached s = true \/ Z.of_nat (List.length n) = total).
Proof.
  intros H. unfold watch_documents. rewrite H.
  destruct (Z.eqb_spec (Z.of_nat (List.length n)) total) as [E|E]; simpl.
  - split; [intros _; now right | reflexivity].
  - split; [intros Hl; now left | intros [Hl|Hl]; [exact Hl | contradiction]].
Qed.

Lemma limit_after_recomputation_witness :
  totalDocuments countedStore = Some 5 /\
  (limitReached (watch_documents [] countedStore) = true <->
   limitReached countedStore = true \/ Z.of_nat (List.length (@nil Document)) = 5).
Proof.
  split; [reflexivity|].
  apply (limit_after_recomputation countedStore [] 5). reflexivity.
Defined.

(** ** Error handler *)

Lemma handleDocumentError_string (str : string) (s : Store) :
  errors (handleDocumentError (EStr str) s) = errors s /\
  toasts (handleDocumentError (EStr str) s) = toasts s /\
  console (handleDocumentError (EStr str) s) = console s ++ [EStr str].
Proof. repeat split. Qed.

Lemma handleDocumentError_object (m : option string) (s : Store) :
  errors (handleDocumentError (EObj m) s) = <["email" := m]> (errors s) /\
  toasts (handleDocumentError (EObj m) s)
  = toasts s ++ [addError "Document error" m].
Proof. repeat split. Qed.

(** C10, as stated, fails: the error the store raises when an update is
    not acknowledged is a string; routed through the handler it is logged
    to the console only, and the error map has no entry for it. *)
Lemma string_error_not_recorded :
  errors (handleDocumentError (EStr "Document not succcessfully updated") sampleStore)
    !! "email" = None.
Proof. reflexivity. Qed.

(** C10, amended: the shared error handler writes no key of the error map
    other than ["email"], whatever operation or field the error comes
    from: an error object is recorded under ["email"] with its message
    (possibly undefined), and a string error is not recorded in the map at
    all.  The only other key the store writes is ["document"], by the
    missing-file validation of [uploadFile] and [createDocument]. *)
Theorem error_map_keys (e : ErrorValue) (s : Store) :
  (forall k : string, k <> "email" ->
     errors (handleDocumentError e s) !! k = errors s !! k) /\
  errors (handleDocumentError e s) !! "email"
  = match e with
    | EObj m => Some m
    | EStr _ => errors s !! "email"
    end /\
  (forall (generateSlug : string -> string),
     errors (store_of (uploadFile generateSlug None s))
     = <["document" := Some "No file selected"]> (errors s)) /\
  (forall (generateSlug : string -> string) (form : DocumentForm)
          (collaborators : list string),
     errors (store_of (createDocument generateSlug None form collaborators s))
     = <["document" := Some "Document not added."]> (errors s)).
Proof.
  split; [|split; [|split]].
  - intros k Hk. destruct e as [str|m]; simpl; [reflexivity|].
    now rewrite lookup_insert_ne.
  - destruct e as [str|m]; simpl; [reflexivity|].
    now rewrite lookup_insert_eq.
  - reflexivity.
  - reflexivity.
Qed.

Lemma error_map_keys_witness :
  "document" <> "email" /\
  errors (handleDocumentError (EObj (Some "row not found")) sampleStore)
    !! "document" = None /\
  errors (handleDocumentError (EObj (Some "row not found")) sampleStore)
    !! "email" = Some (Some "row not found").
Proof.
  destruct (error_map_keys (EObj (Some "row not found")) sampleStore)
    as (Hother & Hemail & _).
  split; [discriminate|].
  split; [|exact Hemail].
  rewrite (Hother "document"); [reflexivity | discriminate].
Defined.

(** ** Collaborator payload *)

Lemma includes_In (l : list string) (x : string) :
  includes l x = true <-> In x l.
Proof.
  unfold includes. rewrite List.existsb_exists. split.
  - intros (c & Hin & Heq). apply String.eqb_eq in Heq. now subst.
  - intros H. exists x. split; [exact H | apply String.eqb_refl].
Qed.

Lemma setFrom_spec (l seen : list string) :
  List.NoDup (setFrom seen l) /\
  (forall x, In x (setFrom seen l) <-> In x l /\ ~ In x seen).
Proof.
  revert seen. induction l as [|x l IH]; intros seen; simpl.
  - split; [constructor | intros x; tauto].
  - destruct (includes seen x) eqn:E.
    + destruct (IH seen) as [Hnd Hin]. split; [exact Hnd|].
      intros y. rewrite Hin. apply includes_In in E.
      split; [tauto|]. intros [[<-|Hy] Hn]; tauto.
    + destruct (IH (x :: seen)) as [Hnd Hin].
      assert (Hx : ~ In x seen).
      { intros H. apply includes_In in H. congruence. }
      split.
      * constructor; [|exact Hnd]. rewrite Hin. simpl. tauto.
      * intros y. simpl. rewrite Hin. simpl.
        destruct (String.eqb_spec x y) as [->|Hne]; intuition congruence.
Qed.

Lemma spliceFirst_In (x y : string) (l : list string) :
  y <> x -> (In y (spliceFirst x l) <-> In y l).
Proof.
  intros Hne. induction l as [|c l IH]; simpl; [tauto|].
  destruct (String.eqb_spec c x) as [->|Hc]; simpl; intuition congruence.
Qed.

Lemma spliceFirst_once (x : string) (l : list string) :
  (count_occ string_dec l x <= 1)%nat -> ~ In x (spliceFirst x l).
Proof.
  induction l as [|c l IH]; simpl; [tauto|].
  destruct (string_dec c x) as [->|Hc].
  - rewrite String.eqb_refl. intros H Hin.
    apply (count_occ_In string_dec) in Hin. lia.
  - destruct (String.eqb_spec c x) as [->|_]; [contradiction|].
    intros H [Heq|Hin]; [contradiction | now apply IH].
Qed.

Lemma payload_user_ids (u : option User) (documentId : string) (l : list string) :
  List.map cr_user_id (collaboratorsPayload u documentId l)
  = setFrom [] (withoutUser u l).
Proof.
  unfold collaboratorsPayload. rewrite List.map_map. simpl. apply List.map_id.
Qed.

(** X21: the payload never repeats an id, and all its rows name the document. *)
Lemma payload_no_duplicates (u : option User) (documentId : string) (l : list string) :
  List.NoDup (List.map cr_user_id (collaboratorsPayload u documentId l)) /\
  (forall row, In row (collaboratorsPayload u documentId l) ->
     document_id row = documentId).
Proof.
  split.
  - rewrite payload_user_ids. apply setFrom_spec.
  - unfold collaboratorsPayload. intros row H. apply List.in_map_iff in H.
    destruct H as (uid & <- & _). reflexivity.
Qed.

(** X22: every other id of the input is in the payload. *)
Lemma payload_keeps_others (user_ : User) (documentId : string) (l : list string)
    (x : string) :
  x <> u_id user_ ->
  (In x (List.map cr_user_id (collaboratorsPayload (Some user_) documentId l))
   <-> In x l).
Proof.
  intros Hne. rewrite payload_user_ids.
  destruct (setFrom_spec (withoutUser (Some user_) l) []) as [_ H].
  rewrite H. simpl. destruct (includes l (u_id user_)).
  - rewrite spliceFirst_In by exact Hne. tauto.
  - tauto.
Qed.

(** X23: the acting user is left out when the input lists them at most once. *)
Lemma payload_excludes_user_listed_once (user_ : User) (documentId : string)
    (l : list string) :
  (count_occ string_dec l (u_id user_) <= 1)%nat ->
  ~ In (u_id user_)
       (List.map cr_user_id (collaboratorsPayload (Some user_) documentId l)).
Proof.
  intros Hc. rewrite payload_user_ids.
  destruct (setFrom_spec (withoutUser (Some user_) l) []) as [_ H].
  rewrite H. simpl. intros [Hin _].
  destruct (includes l (u_id user_)) eqn:E.
  - now apply spliceFirst_once in Hin.
  - apply includes_In in Hin. congruence.
Qed.

(** C3: evaluation of the code at the input on which it departs from the
    claim.  The acting user [u1] is listed twice; the splice removes one
    occurrence, the set keeps the other, and the row for [u1] is sent to
    the gateway. *)
Theorem insertCollaborators_keeps_repeated_user :
  dispatched (insertCollaborators "doc-1" repeatedSelf sampleStore)
  = [InsertCollaborators
       [ {| document_id := "doc-1"; cr_user_id := "u2" |};
         {| document_id := "doc-1"; cr_user_id := "u1" |} ]].
Proof. reflexivity. Qed.

(** ** Filters *)

(** C5, as stated, fails: after one page advance the range is [10..19];
    [updateFilters] then asks the gateway for that same window, not for
    the first page. *)
Lemma updateFilters_not_first_page :
  dispatched (updateFilters sampleFilters pagedStore)
  = [GetPublicDocuments [(by_created_at, false)] {| from := 10; to := 19 |}
       (Some sampleFilters)] /\
  {| from := 10; to := 19 |} <> firstPage.
Proof. split; [reflexivity | discriminate]. Qed.

(** C5, amended: for every state of the params model, [updateFilters]
    replaces the filters and [resetFilters] removes them; either call
    leaves the local collection empty when it returns, before the fetch
    resolves, and sends one fetch of the public documents with the new
    filters and the range and order the params hold at that moment (the
    range is not reset, so this is the first page only when the range is
    the first page), preceded by the count request when [pageNumber] is 1. *)
Theorem filters_clear_and_refetch (s : Store) (filters_ : Filters) :
  (let t := updateFilters filters_ s in
   filters (params (store_of t)) = Some filters_ /\
   range (params (store_of t)) = range (params s) /\
   order (params (store_of t)) = order (params s) /\
   _documents (store_of t) = [] /\
   dispatched t
   = (if pageNumber s =? 1 then [CountDocuments] else [])
     ++ [GetPublicDocuments (order (params s)) (range (params s)) (Some filters_)]) /\
  (let t := resetFilters s in
   filters (params (store_of t)) = None /\
   range (params (store_of t)) = range (params s) /\
   order (params (store_of t)) = order (params s) /\
   _documents (store_of t) = [] /\
   dispatched t
   = (if pageNumber s =? 1 then [CountDocuments] else [])
     ++ [GetPublicDocuments (order (params s)) (range (params s)) None]).
Proof.
  unfold updateFilters, resetFilters, fork, getDocuments. simpl.
  destruct (pageNumber s =? 1); simpl; repeat split.
Qed.

(** ** Pagination *)

(** Up to 2^53 the sum of two whole numbers is exact. *)
Lemma nearestDouble_exact (z : Z) : Z.abs z <= 2 ^ 53 -> nearestDouble z = z.
Proof.
  intros H. unfold nearestDouble. cbv zeta.
  apply Z.leb_le in H. now rewrite H.
Qed.

Lemma js_add_exact (a b : Z) : Z.abs a + Z.abs b <= 2 ^ 53 -> js_add a b = a + b.
Proof. intros H. unfold js_add. apply nearestDouble_exact. lia. Qed.

(** The three sums of a page advance are exact for a safe cursor. *)
Lemma safe_cursor_sums (s : Store) :
  safe_cursor s ->
  js_add (to (range (params s))) 1 = to (range (params s)) + 1 /\
  js_add (js_add (to (range (params s))) 1) (perPage - 1)
  = to (range (params s)) + 1 + (perPage - 1) /\
  js_add (pageNumber s) 1 = pageNumber s + 1.
Proof.
  unfold safe_cursor, perPage. intros [Ht Hn].
  rewrite (js_add_exact (to (range (params s))) 1) by lia.
  rewrite (js_add_exact (to (range (params s)) + 1) (10 - 1)) by lia.
  rewrite (js_add_exact (pageNumber s) 1) by lia.
  repeat split.
Qed.

Lemma ulp_bounds (a : Z) : 2 ^ 53 < a -> 2 <= ulp a.
Proof.
  intros H. unfold ulp.
  assert (53 <= Z.log2 a).
  { change 53 with (Z.log2 (2 ^ 53)). apply Z.log2_le_mono. lia. }
  change 2 with (2 ^ 1) at 1. apply Z.pow_le_mono_r; lia.
Qed.

(** Beyond 2^53 the result is the multiple of the ulp just below the number or
    the one just above, and the number itself when it is such a multiple. *)
Lemma nearestDouble_large (z : Z) :
  2 ^ 53 < Z.abs z ->
  exists m,
    nearestDouble z = Z.sgn z * (m * ulp (Z.abs z)) /\
    (m = Z.abs z / ulp (Z.abs z) \/
     (m = Z.abs z / ulp (Z.abs z) + 1 /\ Z.abs z mod ulp (Z.abs z) <> 0)).
Proof.
  intros H. pose proof (ulp_bounds _ H) as Hu.
  unfold nearestDouble. cbv zeta.
  destruct (Z.leb_spec (Z.abs z) (2 ^ 53)) as [Hle|_]; [lia|].
  destruct (Z.ltb_spec (2 * (Z.abs z mod ulp (Z.abs z))) (ulp (Z.abs z))).
  - eexists. split; [reflexivity|]. now left.
  - destruct (Z.ltb_spec (ulp (Z.abs z)) (2 * (Z.abs z mod ulp (Z.abs z)))).
    + eexists. split; [reflexivity|]. right. split; [reflexivity|]. lia.
    + destruct (Z.even (Z.abs z / ulp (Z.abs z))).
      * eexists. split; [reflexivity|]. now left.
      * eexists. split; [reflexivity|]. right. split; [reflexivity|]. lia.
Qed.

Lemma double_multiple (z : Z) :
  is_double z -> 2 ^ 53 < Z.abs z -> (ulp (Z.abs z) | Z.abs z).
Proof.
  intros Hd H. destruct (nearestDouble_large z H) as (m & Hm & _).
  unfold is_double in Hd. rewrite Hm in Hd.
  pose proof (ulp_bounds _ H).
  apply (f_equal Z.abs) in Hd. rewrite !Z.abs_mul in Hd.
  rewrite (Z.abs_eq (ulp _)) in Hd by lia.
  assert (Hs : Z.abs (Z.sgn z) = 1) by (destruct z; simpl in *; lia).
  rewrite Hs in Hd. exists (Z.abs m). lia.
Qed.

Lemma ulp_divides (a b : Z) : 2 ^ 53 < a -> a <= b -> (ulp a | ulp b).
Proof.
  intros Ha Hab. unfold ulp.
  assert (53 <= Z.log2 a).
  { change 53 with (Z.log2 (2 ^ 53)). apply Z.log2_le_mono. lia. }
  pose proof (Z.log2_le_mono a b Hab).
  exists (2 ^ (Z.log2 b - Z.log2 a)).
  rewrite <- Z.pow_add_r by lia. f_equal. lia.
Qed.

(** Adding one to a double does not give a smaller number. *)
Lemma js_add_one_le (p : Z) : is_double p -> p <= js_add p 1.
Proof.
  intros Hd. unfold js_add.
  destruct (Z_le_gt_dec (Z.abs (p + 1)) (2 ^ 53)) as [Hs|Hs].
  { rewrite nearestDouble_exact by exact Hs. lia. }
  assert (Hbig : 2 ^ 53 < Z.abs (p + 1)) by lia.
  destruct (nearestDouble_large (p + 1) Hbig) as (m & -> & Hm).
  pose proof (ulp_bounds _ Hbig) as Hu.
  set (u := ulp (Z.abs (p + 1))) in *.
  pose proof (Z.div_mod (Z.abs (p + 1)) u ltac:(lia)) as Hdm.
  pose proof (Z.mod_pos_bound (Z.abs (p + 1)) u ltac:(lia)) as Hr.
  destruct (Z_lt_le_dec p 0) as [Hneg|Hpos].
  - (* p + 1 < - 2^53 *)
    assert (Hp : 2 ^ 53 < Z.abs p) by lia.
    pose proof (double_multiple p Hd Hp) as Hdiv.
    assert (Hdiv' : (u | Z.abs p)).
    { apply Z.divide_trans with (ulp (Z.abs p)); [|exact Hdiv].
      apply ulp_divides; lia. }
    destruct Hdiv' as [k Hk].
    assert (Hmod : Z.abs (p + 1) mod u = u - 1).
    { symmetry. apply Z.mod_unique with (q := k - 1); [lia|]. lia. }
    assert (Hsg : Z.sgn (p + 1) = -1) by (apply Z.sgn_neg; lia).
    rewrite Hsg. destruct Hm as [->|[-> _]]; nia.
  - assert (Hsg : Z.sgn (p + 1) = 1) by (apply Z.sgn_pos; lia).
    rewrite Hsg.
    assert (Hmod : Z.abs (p + 1) mod u <= 1).
    { destruct (Z.eq_dec p (2 ^ 53)) as [->|Hne].
      - subst u. vm_compute. discriminate.
      - assert (Hp : 2 ^ 53 < Z.abs p) by lia.
        pose proof (double_multiple p Hd Hp) as Hdiv.
        clear Hdm Hr Hm Hu. subst u.
        rewrite (Z.abs_eq (p + 1)) in * by lia.
        rewrite (Z.abs_eq p) in * by lia.
        destruct (Z.log2_succ_or p) as [Hl|Hl].
        + destruct (Z.log2_eq_succ_is_pow2 p Hl) as [b Hb].
          rewrite <- Z.add_1_r in Hb. unfold ulp. rewrite Hb.
          assert (0 <= b).
          { destruct (Z_lt_le_dec b 0); [|assumption].
            rewrite Z.pow_neg_r in Hb by assumption. lia. }
          rewrite Z.log2_pow2 by assumption.
          assert (52 <= b).
          { destruct (Z_lt_le_dec b 52); [|assumption].
            assert (2 ^ b <= 2 ^ 52) by (apply Z.pow_le_mono_r; lia).
            assert (2 ^ 52 < 2 ^ 53) by reflexivity. lia. }
          replace b with ((b - 52) + (b - (b - 52))) at 1 by lia.
          rewrite Z.pow_add_r by lia. rewrite Z.mul_comm, Z.mod_mul; lia.
        + rewrite <- Z.add_1_r in Hl.
          pose proof (ulp_bounds p Hp) as Hv.
          unfold ulp in *. rewrite Hl.
          destruct Hdiv as [k Hk].
          set (v := 2 ^ (Z.log2 p - 52)) in *.
          replace (p + 1) with (1 + k * v) by lia.
          rewrite Z.mod_add by lia.
          rewrite Z.mod_small; lia. }
    destruct Hm as [->|[-> _]]; nia.
Qed.

Section Cursor.

Variable P : Store -> Prop.
Hypothesis P_cursor : cursor_only P.

Lemma cursor_handleDocumentError (e : ErrorValue) (s : Store) :
  P s -> P (handleDocumentError e s).
Proof. apply (P_cursor s); destruct e; reflexivity. Qed.

Lemma getDocumentCount_cursor (s : Store) :
  P s -> preserves P (getDocumentCount s).
Proof.
  intros H. simpl. split; [exact H|].
  intros [p|e] s' H'; simpl; [|exact H'].
  assert (H1 : P match c_error p with
                 | Some _ =>
                     handleDocumentError (EStr "Trouble getting document count") s'
                 | None => s'
                 end).
  { destruct (c_error p); [now apply cursor_handleDocumentError | exact H']. }
  destruct (count p) as [c|]; [|exact H1].
  destruct (c =? 0); [exact H1|]. simpl.
  destruct (perPage <? c); revert H1; apply P_cursor; reflexivity.
Qed.

(** [getDocuments] assigns neither the params nor the page number, at
    any point and whatever the replies. *)
Lemma getDocuments_cursor (s : Store) :
  P s -> preserves P (getDocuments s).
Proof.
  intros H. unfold getDocuments.
  assert (H1 : P (set_loadingAll true s)).
  { revert H. apply P_cursor; reflexivity. }
  assert (Hk : forall s', P s' ->
    preserves P
      (finally
        (try_catch
          (Await (GetPublicDocuments (order (params (resetErrors s')))
                    (range (params (resetErrors s')))
                    (filters (params (resetErrors s')))) (resetErrors s')
            (fun r s =>
              match r with
              | Rejected e => Throw e s
              | Resolved p =>
                  let s :=
                    match r_error p with
                    | Some e => handleDocumentError (thrown e) s
                    | None => s
                    end in
                  match data p with
                  | Some rows => Return tt (set_documents (_documents s ++ rows) s)
                  | None => Return tt s
                  end
              end))
          (fun e s => Return tt (handleDocumentError e s)))
        (fun s => set_loadingNextPage false (set_loadingAll false s)))).
  { intros s' H'. apply preserves_finally.
    - apply preserves_try_catch.
      + simpl. split; [revert H'; apply P_cursor; reflexivity|].
        intros [p|e] s2 H2; simpl; [|exact H2].
        assert (H3 : P match r_error p with
                       | Some e => handleDocumentError (thrown e) s2
                       | None => s2
                       end).
        { destruct (r_error p); [now apply cursor_handleDocumentError | exact H2]. }
        destruct (data p); simpl; [|exact H3].
        revert H3. apply P_cursor; reflexivity.
      + intros e s2 H2. simpl. now apply cursor_handleDocumentError.
    - intros s2. apply P_cursor; reflexivity. }
  destruct (pageNumber (set_loadingAll true s) =? 1).
  - apply preserves_fork; [now apply getDocumentCount_cursor | exact Hk].
  - now apply Hk.
Qed.

Lemma nextPage_cursor (s : Store) :
  P s ->
  (P (set_params
        {| range := {| from := js_add (to (range (params s))) 1;
                       to := js_add (js_add (to (range (params s))) 1) (perPage - 1) |};
           filters := filters (params s);
           order := order (params s) |}
        (set_pageNumber (js_add (pageNumber s) 1) s))) ->
  preserves P (nextPage s).
Proof.
  intros H H'. unfold nextPage. destruct (limitReached s); [exact H|].
  apply preserves_await.
  - apply getDocuments_cursor. revert H'. apply P_cursor; reflexivity.
  - intros _ s' Hs'. exact Hs'.
Qed.

End Cursor.

Lemma page_window_cursor : cursor_only page_window.
Proof. intros s s' Hp _. unfold page_window. now rewrite Hp. Qed.





(** ** Reading the documents of the signed-in user *)

(** [getDocuments] appends the rows as the gateway sent them. *)
Lemma getDocuments_appends_rows (s : Store) (g : Gateway) (rows : list Document)
    (e : option GatewayError) :
  g (GetPublicDocuments (order (params s)) (range (params s)) (filters (params s)))
  = Resolved {| data := Some rows; r_error := e |} ->
  _documents (final g (getDocuments s)) = _documents s ++ rows.
Proof.
  intros H. unfold final, getDocuments, fork.
  destruct (pageNumber (set_loadingAll true s) =? 1); simpl; rewrite H; simpl;
    destruct e; reflexivity.
Qed.

(** C1, as stated, fails: the gateway returns one row for [mine], the
    caller receives it resolved, and the collection of the store, which
    held two documents, is left empty instead of holding the fetched row. *)
Lemma getUserDocuments_leaves_collection_empty :
  _documents loadedStore = [report; minutes] /\
  userReply catalogGateway mine = inl {| data := Some [report]; r_error := None |} /\
  result catalogGateway (getUserDocuments mine loadedStore)
  = Returned (JVal [sampleDocument "d1" (Some "Category One") ["Tag One"]]) /\
  _documents (final catalogGateway (getUserDocuments mine loadedStore)) = [] /\
  _documents (final catalogGateway (getUserDocuments mine loadedStore)) <> [report].
Proof. repeat split. discriminate. Qed.

(** Whatever the gateway answers, the collection is empty afterwards. *)
Lemma getUserDocuments_always_empty (criteria : GetDocumentsCriteria)
    (s : Store) (g : Gateway) :
  _documents (final g (getUserDocuments criteria s)) = [] /\
  loadingAll (final g (getUserDocuments criteria s)) = false.
Proof.
  unfold final.
  destruct criteria; simpl;
    match goal with
    | |- context [g ?rq] => destruct (g rq) as [p|e]
    end; simpl;
    try (destruct (r_error p), (data p); simpl; now split);
    destruct e; now split.
Qed.

(** C1, amended: for every criteria, [getUserDocuments] empties the
    collection of the store before the fetch and leaves it empty: the
    fetched rows are not stored, whatever the gateway answers.  When the
    gateway answers with rows and no error, the call returns those rows
    with their labels resolved, and the store differs from the one it
    started from only by the emptied collection, the reset error map and
    the cleared loading flag. *)
Theorem getUserDocuments_clears_and_returns (criteria : GetDocumentsCriteria)
    (s : Store) (g : Gateway) :
  let t := getUserDocuments criteria s in
  _documents (store_of t) = [] /\
  loadingAll (store_of t) = true /\
  _documents (final g t) = [] /\
  loadingAll (final g t) = false /\
  (forall rows : list Document,
     userReply g criteria = inl {| data := Some rows; r_error := None |} ->
     result g t = Returned (JVal (List.map (updateDocumentTagsAndCategory s) rows)) /\
     final g t = set_loadingAll false (set_errors ∅ (set_documents [] s))).
Proof.
  intros t. subst t.
  split; [destruct criteria; reflexivity|].
  split; [destruct criteria; reflexivity|].
  split; [apply getUserDocuments_always_empty|].
  split; [apply getUserDocuments_always_empty|].
  intros rows H. unfold final, result.
  destruct criteria; simpl in *;
    match goal with
    | H : match ?r with Resolved _ => _ | Rejected _ => _ end = _ |- _ =>
        destruct r as [p|e]; [|discriminate H];
        injection H as ->
    end; simpl; split; reflexivity.
Qed.

Lemma getUserDocuments_clears_and_returns_witness :
  userReply catalogGateway mine = inl {| data := Some [report]; r_error := None |} /\
  _documents (final catalogGateway (getUserDocuments mine loadedStore)) = [] /\
  result catalogGateway (getUserDocuments mine loadedStore)
  = Returned (JVal [sampleDocument "d1" (Some "Category One") ["Tag One"]]) /\
  _documents (final deniedGateway (getUserDocuments mine loadedStore)) = [].
Proof.
  destruct (getUserDocuments_clears_and_returns mine loadedStore catalogGateway)
    as (_ & _ & Hd & _ & Hrows).
  destruct (getUserDocuments_clears_and_returns mine loadedStore deniedGateway)
    as (_ & _ & Hdenied & _).
  split; [reflexivity|]. split; [exact Hd|].
  split; [exact (proj1 (Hrows [report] eq_refl)) | exact Hdenied].
Defined.

(** ** Single documents *)

(** Case analysis on what a call branches on: the reply to a request
    (with the shape of the rejection), the fields of a payload, a test. *)
Lemma reply_cases (g : Gateway) (rq : Request) :
  (exists p, g rq = Resolved p) \/
  (exists x, g rq = Rejected (EStr x)) \/
  (exists m, g rq = Rejected (EObj m)).
Proof. destruct (g rq) as [p|[x|m]]; eauto. Qed.

Lemma option_cases {A : Type} (o : option A) : (exists a, o = Some a) \/ o = None.
Proof. destruct o; eauto. Qed.

Lemma bool_cases (b : bool) : b = true \/ b = false.
Proof. destruct b; auto. Qed.

Ltac branch_on_option o :=
  let E := fresh "E" in
  destruct (option_cases o) as [[? E]|E]; rewrite E.

Ltac branch :=
  match goal with
  | H : ?x = _ |- context [match ?x with _ => _ end] => rewrite H
  | |- context [match ?g ?rq with Resolved _ => _ | Rejected _ => _ end] =>
      let E := fresh "E" in
      destruct (reply_cases g rq) as [[? E]|[[? E]|[? E]]]; rewrite E
  | |- context [match r_error ?p with Some _ => _ | None => _ end] =>
      branch_on_option (r_error p)
  | |- context [match rm_error ?p with Some _ => _ | None => _ end] =>
      branch_on_option (rm_error p)
  | |- context [match rm_data ?p with Some _ => _ | None => _ end] =>
      branch_on_option (rm_data p)
  | |- context [match p_error ?p with Some _ => _ | None => _ end] =>
      branch_on_option (p_error p)
  | |- context [match p_data ?p with Some _ => _ | None => _ end] =>
      branch_on_option (p_data p)
  | |- context [match e_error ?p with Some _ => _ | None => _ end] =>
      branch_on_option (e_error p)
  | |- context [match c_error ?p with Some _ => _ | None => _ end] =>
      branch_on_option (c_error p)
  | |- context [if ?b then _ else _] =>
      let E := fresh "E" in
      destruct (bool_cases b) as [E|E]; rewrite E
  end.

Ltac branches := simpl; repeat (branch; simpl).

(** What a deletion does once the document has been found: the file
    removal and the row deletion are both requested, whatever the storage
    answers, and the outcome is decided by the reply to the row deletion
    alone. *)
Lemma deleteDocument_found (id_ : string) (s : Store) (g : Gateway)
    (p1 : RowsResponse) (doc : Document) (rest : list Document) :
  g (SelectDocument id_) = Resolved p1 ->
  data p1 = Some (doc :: rest) ->
  let t := deleteDocument id_ s in
  requests g t
  = [SelectDocument id_; StorageRemove [url doc]; DeleteDocument (id doc)] /\
  match g (DeleteDocument (id doc)) with
  | Rejected _ =>
      result g t = Returned JUndefined /\ _documents (final g t) = _documents s
  | Resolved p =>
      if status p =? 204
      then result g t = Returned (JBool true) /\
           _documents (final g t)
           = List.filter (fun d => negb (String.eqb (id d) id_)) (documents s)
      else result g t = Returned (JBool false) /\
           _documents (final g t) = _documents s
  end.
Proof.
  intros H1 Hd t. subst t.
  unfold result, final, deleteDocument, getDocument, deleteFile, documents. simpl.
  rewrite H1. simpl. rewrite Hd.
  branches; repeat split.
Qed.

(** A deletion whose document is not found asks for nothing else, reports
    failure and leaves the collection alone. *)
Lemma deleteDocument_not_found (id_ : string) (s : Store) (g : Gateway) :
  (forall p1 doc rest,
     g (SelectDocument id_) = Resolved p1 -> data p1 <> Some (doc :: rest)) ->
  let t := deleteDocument id_ s in
  requests g t = [SelectDocument id_] /\
  result g t <> Returned (JBool true) /\
  _documents (final g t) = _documents s.
Proof.
  intros H t. subst t.
  unfold result, final, deleteDocument, getDocument. simpl.
  destruct (reply_cases g (SelectDocument id_)) as [[p1 E1]|[[x E1]|[m E1]]];
    rewrite E1; simpl.
  - specialize (H p1). destruct (data p1) as [[|doc rest]|]; simpl.
    + branches; repeat split; discriminate.
    + now destruct (H doc rest E1 eq_refl).
    + branches; repeat split; discriminate.
  - repeat split; discriminate.
  - repeat split; discriminate.
Qed.

Lemma found_or_not (id_ : string) (g : Gateway) :
  (exists p1 doc rest,
     g (SelectDocument id_) = Resolved p1 /\ data p1 = Some (doc :: rest)) \/
  (forall p1 doc rest,
     g (SelectDocument id_) = Resolved p1 -> data p1 <> Some (doc :: rest)).
Proof.
  destruct (g (SelectDocument id_)) as [p1|e1] eqn:E1.
  - destruct (data p1) as [[|doc rest]|] eqn:Ed.
    + right. intros p doc rest [= <-]. simpl in *. congruence.
    + left. now exists p1, doc, rest.
    + right. intros p doc rest [= <-]. simpl in *. congruence.
  - right. intros p doc rest H. discriminate H.
Qed.

(** The stored collection changes only when the deletion succeeds. *)
Lemma deleteDocument_outcome (id_ : string) (s : Store) (g : Gateway) :
  let t := deleteDocument id_ s in
  (result g t = Returned (JBool true) /\
   _documents (final g t)
   = List.filter (fun d => negb (String.eqb (id d) id_)) (documents s) /\
   exists docid p,
     In (DeleteDocument docid) (requests g t) /\
     g (DeleteDocument docid) = Resolved p /\ status p = 204) \/
  (result g t <> Returned (JBool true) /\
   _documents (final g t) = _documents s).
Proof.
  intros t. destruct (found_or_not id_ g) as [(p1 & doc & rest & H1 & Hd)|Hn].
  - destruct (deleteDocument_found id_ s g p1 doc rest H1 Hd) as [Hrq Hout].
    fold t in Hrq, Hout.
    destruct (g (DeleteDocument (id doc))) as [p|e] eqn:E.
    + destruct (Z.eqb_spec (status p) 204) as [Hs|Hs].
      * left. destruct Hout as [Hr Hc]. split; [exact Hr|]. split; [exact Hc|].
        exists (id doc), p. rewrite Hrq. simpl. auto.
      * right. destruct Hout as [Hr Hc]. rewrite Hr. split; [discriminate | exact Hc].
    + right. destruct Hout as [Hr Hc]. rewrite Hr. split; [discriminate | exact Hc].
  - right. destruct (deleteDocument_not_found id_ s g Hn) as (_ & Hr & Hc).
    now split.
Qed.

(** A row deletion that was requested and answered decides the result. *)
Lemma deleteDocument_status (id_ : string) (s : Store) (g : Gateway)
    (docid : string) (p : StatusResponse) :
  let t := deleteDocument id_ s in
  In (DeleteDocument docid) (requests g t) ->
  g (DeleteDocument docid) = Resolved p ->
  if status p =? 204
  then result g t = Returned (JBool true)
  else result g t = Returned (JBool false) /\ _documents (final g t) = _documents s.
Proof.
  intros t Hin Hg.
  destruct (found_or_not id_ g) as [(p1 & doc & rest & H1 & Hd)|Hn].
  - destruct (deleteDocument_found id_ s g p1 doc rest H1 Hd) as [Hrq Hout].
    fold t in Hrq, Hout. rewrite Hrq in Hin. simpl in Hin.
    destruct Hin as [Hin|[Hin|[Hin|[]]]]; try discriminate Hin.
    injection Hin as <-. rewrite Hg in Hout.
    destruct (status p =? 204); [exact (proj1 Hout) | exact Hout].
  - destruct (deleteDocument_not_found id_ s g Hn) as (Hrq & _).
    fold t in Hrq. rewrite Hrq in Hin. simpl in Hin.
    destruct Hin as [Hin|[]]. discriminate Hin.
Qed.

Lemma filter_ids (id_ : string) (l : list Document) (f : Document -> Document) :
  (forall d, id (f d) = id d) ->
  List.filter (fun d => negb (String.eqb (id d) id_)) (List.map f l)
  = List.map f (List.filter (fun d => negb (String.eqb (id d) id_)) l).
Proof.
  intros Hf. induction l as [|d l IH]; simpl; [reflexivity|].
  rewrite Hf. destruct (negb (String.eqb (id d) id_)); simpl; now rewrite IH.
Qed.

Lemma ids_of_filter (id_ : string) (l : list Document) :
  List.map id (List.filter (fun d => negb (String.eqb (id d) id_)) l)
  = List.filter (fun i => negb (String.eqb i id_)) (List.map id l).
Proof.
  induction l as [|d l IH]; simpl; [reflexivity|].
  destruct (negb (String.eqb (id d) id_)); simpl; now rewrite IH.
Qed.

Lemma filter_split_length {A : Type} (q : A -> bool) (l : list A) :
  (List.length (List.filter q l)
   + List.length (List.filter (fun a => negb (q a)) l))%nat
  = List.length l.
Proof.
  induction l as [|a l IH]; simpl; [reflexivity|].
  destruct (q a); simpl; lia.
Qed.

(** A row deletion that was requested and rejected leaves the call without
    a value and the collection as it was. *)
Lemma deleteDocument_rejected (id_ : string) (s : Store) (g : Gateway)
    (docid : string) (e : ErrorValue) :
  let t := deleteDocument id_ s in
  In (DeleteDocument docid) (requests g t) ->
  g (DeleteDocument docid) = Rejected e ->
  result g t = Returned JUndefined /\ _documents (final g t) = _documents s.
Proof.
  intros t Hin Hg.
  destruct (found_or_not id_ g) as [(p1 & doc & rest & H1 & Hd)|Hn].
  - destruct (deleteDocument_found id_ s g p1 doc rest H1 Hd) as [Hrq Hout].
    fold t in Hrq, Hout. rewrite Hrq in Hin. simpl in Hin.
    destruct Hin as [Hin|[Hin|[Hin|[]]]]; try discriminate Hin.
    injection Hin as <-. rewrite Hg in Hout. exact Hout.
  - destruct (deleteDocument_not_found id_ s g Hn) as (Hrq & _).
    fold t in Hrq. rewrite Hrq in Hin. simpl in Hin.
    destruct Hin as [Hin|[]]. discriminate Hin.
Qed.




(** C2: evaluation of the code at the input on which it departs from the
    claim.  The store holds [report] and [minutes] with their slugs; after
    [minutes] is deleted the stored [report] carries the display names of
    its tag and category instead of the slugs [t1] and [c1]. *)
Theorem deleteDocument_stores_display_names :
  _documents loadedStore = [report; minutes] /\
  result catalogGateway (deleteDocument "d2" loadedStore) = Returned (JBool true) /\
  _documents (final catalogGateway (deleteDocument "d2" loadedStore))
  = [sampleDocument "d1" (Some "Category One") ["Tag One"]] /\
  _documents (final catalogGateway (deleteDocument "d2" loadedStore)) <> [report].
Proof. repeat split. discriminate. Qed.

(** What an update does once the document has been found: one row update
    is requested, and its reply decides between failure and success. *)
Lemma updateDocument_found (now id_ : string) (data_ : DocumentForm)
    (file : option File) (collaborators : list string) (s : Store) (g : Gateway)
    (p1 : RowsResponse) (doc : Document) (rest : list Document) :
  g (SelectDocument id_) = Resolved p1 ->
  data p1 = Some (doc :: rest) ->
  let t := updateDocument now id_ data_ file collaborators s in
  exists payload,
    In (UpdateDocument payload (id doc)) (requests g t) /\
    (forall payload' docid,
       In (UpdateDocument payload' docid) (requests g t) ->
       payload' = payload /\ docid = id doc) /\
    match g (UpdateDocument payload (id doc)) with
    | Rejected _ => result g t = Returned JUndefined
    | Resolved p =>
        if status p =? 204
        then result g t = Returned (JVal (merged doc payload)) \/
             result g t = Returned JUndefined
        else result g t = Returned (JBool false)
    end.
Proof.
  intros H1 Hd t. subst t.
  unfold result, updateDocument, getDocument, updateFile, updateCollaborators,
    insertCollaborators. simpl.
  rewrite H1. simpl. rewrite Hd.
  destruct file as [f|]; branches.
  all: match goal with
       | |- context [UpdateDocument ?q ?i] => exists q
       end.
  all: branches.
  all: split; [simpl; auto 8|]; split; [|auto].
  all: intros payload' docid Hq; simpl in Hq;
       repeat (destruct Hq as [Hq|Hq]; [try discriminate Hq|]);
       try contradiction;
       try (injection Hq as <- <-; now split).
Qed.

Lemma updateDocument_not_found (now id_ : string) (data_ : DocumentForm)
    (file : option File) (collaborators : list string) (s : Store) (g : Gateway) :
  (forall p1 doc rest,
     g (SelectDocument id_) = Resolved p1 -> data p1 <> Some (doc :: rest)) ->
  let t := updateDocument now id_ data_ file collaborators s in
  requests g t = [SelectDocument id_] /\
  (result g t = Returned (JBool false) \/ result g t = Returned JUndefined).
Proof.
  intros H t. subst t.
  unfold result, updateDocument, getDocument. simpl.
  destruct (reply_cases g (SelectDocument id_)) as [[p1 E1]|[[x E1]|[m E1]]];
    rewrite E1; simpl.
  - specialize (H p1). destruct (data p1) as [[|doc rest]|]; simpl.
    + branches; auto.
    + now destruct (H doc rest E1 eq_refl).
    + branches; auto.
  - auto.
  - auto.
Qed.

(** A row update that was requested and answered decides the result. *)
Lemma updateDocument_status (now id_ : string) (data_ : DocumentForm)
    (file : option File) (collaborators : list string) (s : Store) (g : Gateway)
    (payload : UpdatePayload) (docid : string) (p : StatusResponse) :
  let t := updateDocument now id_ data_ file collaborators s in
  In (UpdateDocument payload docid) (requests g t) ->
  g (UpdateDocument payload docid) = Resolved p ->
  if status p =? 204
  then result g t <> Returned (JBool false)
  else result g t = Returned (JBool false).
Proof.
  intros t Hin Hg.
  destruct (found_or_not id_ g) as [(p1 & doc & rest & H1 & Hd)|Hn].
  - destruct (updateDocument_found now id_ data_ file collaborators s g
                p1 doc rest H1 Hd) as (q & _ & Huniq & Hout).
    fold t in Huniq, Hout.
    destruct (Huniq payload docid Hin) as [-> ->].
    rewrite Hg in Hout.
    destruct (status p =? 204); [|exact Hout].
    destruct Hout as [-> | ->]; discriminate.
  - destruct (updateDocument_not_found now id_ data_ file collaborators s g Hn)
      as (Hrq & _).
    fold t in Hrq. rewrite Hrq in Hin. simpl in Hin.
    destruct Hin as [Hin|[]]. discriminate Hin.
Qed.

(** An update that returns the merged document got a 204 for its row. *)
Lemma updateDocument_success (now id_ : string) (data_ : DocumentForm)
    (file : option File) (collaborators : list string) (s : Store) (g : Gateway)
    (d : Document) :
  let t := updateDocument now id_ data_ file collaborators s in
  result g t = Returned (JVal d) ->
  exists payload docid p,
    In (UpdateDocument payload docid) (requests g t) /\
    g (UpdateDocument payload docid) = Resolved p /\
    status p = 204.
Proof.
  intros t Hr.
  destruct (found_or_not id_ g) as [(p1 & doc & rest & H1 & Hd)|Hn].
  - destruct (updateDocument_found now id_ data_ file collaborators s g
                p1 doc rest H1 Hd) as (q & Hin & _ & Hout).
    fold t in Hin, Hout. exists q, (id doc).
    destruct (g (UpdateDocument q (id doc))) as [p|e].
    + exists p. split; [exact Hin|]. split; [reflexivity|].
      destruct (Z.eqb_spec (status p) 204) as [E|_]; [exact E|].
      rewrite Hout in Hr. discriminate Hr.
    + rewrite Hout in Hr. discriminate Hr.
  - destruct (updateDocument_not_found now id_ data_ file collaborators s g Hn)
      as (_ & [Hf|Hf]); fold t in Hf; rewrite Hf in Hr; discriminate Hr.
Qed.



(** * Further properties of the actions *)

(** ** How the parts of an asynchronous function compose *)

Lemma run_finally {A : Type} (g : Gateway) (t : Task A) (f : Store -> Store) :
  run g (finally t f) = (fst (run g t), f (snd (run g t))).
Proof.
  induction t as [A a s|A e s|A rq s k IH|A c IHc p IHp]; simpl.
  - reflexivity.
  - reflexivity.
  - apply IH.
  - apply IHp.
Qed.

Lemma run_try_catch {A : Type} (g : Gateway) (t : Task A)
    (h : ErrorValue -> Store -> Task A) :
  run g (try_catch t h)
  = match run g t with
    | (Threw e, s) => run g (h e s)
    | r => r
    end.
Proof.
  induction t as [A a s|A e s|A rq s k IH|A c IHc p IHp]; simpl.
  - reflexivity.
  - reflexivity.
  - apply IH.
  - apply IHp.
Qed.

Lemma run_await {A B : Type} (g : Gateway) (t : Task A) (k : A -> Store -> Task B) :
  run g (await t k)
  = match run g t with
    | (Returned a, s) => run g (k a s)
    | (Threw e, s) => (Threw e, s)
    end.
Proof.
  induction t as [A a s|A e s|A rq s k' IH|A c IHc p IHp]; simpl.
  - reflexivity.
  - reflexivity.
  - apply IH.
  - apply IHp.
Qed.

Lemma returns_finally {A : Type} (g : Gateway) (t : Task A) (f : Store -> Store) :
  returns g t -> returns g (finally t f).
Proof.
  unfold returns, result. rewrite run_finally. simpl. auto.
Qed.

Lemma returns_try_catch {A : Type} (g : Gateway) (t : Task A)
    (h : ErrorValue -> Store -> Task A) :
  (forall e s, returns g (h e s)) -> returns g (try_catch t h).
Proof.
  intros Hh. unfold returns, result. rewrite run_try_catch.
  destruct (run g t) as [[a|e] s]; simpl.
  - eauto.
  - apply Hh.
Qed.

Lemma returns_Return {A : Type} (g : Gateway) (a : A) (s : Store) :
  returns g (Return a s).
Proof. now exists a. Qed.

(** X1: whatever the gateway answers or rejects, the actions that wrap
    their body in [try]/[catch] complete by returning a value. *)
Theorem actions_never_reject (g : Gateway) (s : Store) :
  returns g (getDocuments s) /\
  (forall criteria, returns g (getUserDocuments criteria s)) /\
  (forall generateSlug file, returns g (uploadFile generateSlug file s)) /\
  (forall generateSlug file form collaborators,
     returns g (createDocument generateSlug file form collaborators s)) /\
  (forall documentId collaborators,
     returns g (insertCollaborators documentId collaborators s)) /\
  (forall id_, returns g (getDocument id_ s)) /\
  (forall now id_ data_ file collaborators,
     returns g (updateDocument now id_ data_ file collaborators s)) /\
  (forall id_, returns g (deleteDocument id_ s)) /\
  (forall url_ file, returns g (updateFile url_ file s)) /\
  (forall path, returns g (deleteFile path s)).
Proof.
  assert (Hh : forall (A : Type) (a : A) (e : ErrorValue) (s' : Store),
             returns g (Return a (handleDocumentError e s'))).
  { intros. apply returns_Return. }
  repeat split; intros.
  - unfold getDocuments.
    destruct (pageNumber (set_loadingAll true s) =? 1).
    + unfold fork, returns, result. simpl.
      apply returns_finally, returns_try_catch. intros; apply returns_Return.
    + apply returns_finally, returns_try_catch. intros; apply returns_Return.
  - apply returns_finally, returns_try_catch. intros; apply returns_Return.
  - destruct file; simpl; [|apply returns_Return].
    apply returns_finally, returns_try_catch. intros; apply returns_Return.
  - apply returns_finally, returns_try_catch. intros; apply returns_Return.
  - apply returns_try_catch. intros; apply returns_Return.
  - apply returns_finally, returns_try_catch. intros; apply returns_Return.
  - apply returns_finally, returns_try_catch. intros; apply returns_Return.
  - apply returns_finally, returns_try_catch. intros; apply returns_Return.
  - apply returns_try_catch. intros; apply returns_Return.
  - apply returns_try_catch. intros; apply returns_Return.
Qed.

Lemma final_finally {A : Type} (g : Gateway) (t : Task A) (f : Store -> Store) :
  final g (finally t f) = f (final g t).
Proof. unfold final. now rewrite run_finally. Qed.

(** X2: when an action completes, with a value or after an error, the
    loading flag it raised is down again: [loadingAll] and
    [loadingNextPage] after [getDocuments], [loadingAll] after
    [getUserDocuments], [uploading] after an upload, [loadingSingle] after
    [createDocument], [getDocument], [updateDocument] and
    [deleteDocument]. *)
Theorem loading_flags_cleared (g : Gateway) (s : Store) :
  (loadingAll (final g (getDocuments s)) = false /\
   loadingNextPage (final g (getDocuments s)) = false) /\
  (forall criteria, loadingAll (final g (getUserDocuments criteria s)) = false) /\
  (forall generateSlug f,
     uploading (final g (uploadFile generateSlug (Some f) s)) = false) /\
  (forall generateSlug file form collaborators,
     loadingSingle (final g (createDocument generateSlug file form collaborators s))
     = false) /\
  (forall id_, loadingSingle (final g (getDocument id_ s)) = false) /\
  (forall now id_ data_ file collaborators,
     loadingSingle (final g (updateDocument now id_ data_ file collaborators s))
     = false) /\
  (forall id_, loadingSingle (final g (deleteDocument id_ s)) = false).
Proof.
  repeat split; intros.
  - unfold getDocuments, fork.
    destruct (pageNumber (set_loadingAll true s) =? 1);
      [change (final g (Fork ?c ?p)) with (final g p)|];
      now rewrite final_finally.
  - unfold getDocuments, fork.
    destruct (pageNumber (set_loadingAll true s) =? 1);
      [change (final g (Fork ?c ?p)) with (final g p)|];
      now rewrite final_finally.
  - unfold getUserDocuments. now rewrite final_finally.
  - unfold uploadFile. now rewrite final_finally.
  - unfold createDocument. now rewrite final_finally.
  - unfold getDocument. now rewrite final_finally.
  - unfold updateDocument. now rewrite final_finally.
  - unfold deleteDocument. now rewrite final_finally.
Qed.

(** X3: [getDocumentCount] and [updateCollaborators] have no [catch]: when
    the gateway rejects their first request they reject with the same
    error, leave the store as it was, and [updateCollaborators] inserts
    nothing. *)
Theorem uncaught_rejections (g : Gateway) (s : Store) (e : ErrorValue) :
  (g CountDocuments = Rejected e ->
   run g (getDocumentCount s) = (Threw e, s)) /\
  (forall documentId collaborators,
     g (DeleteCollaborators documentId) = Rejected e ->
     run g (updateCollaborators documentId collaborators s) = (Threw e, s) /\
     requests g (updateCollaborators documentId collaborators s)
     = [DeleteCollaborators documentId]).
Proof.
  split.
  - intros H. simpl. now rewrite H.
  - intros documentId collaborators H. simpl. now rewrite H.
Qed.

Ltac branch_on_list l :=
  let E := fresh "E" in
  assert (E : l = [] \/ exists a r, l = a :: r) by (destruct l; eauto);
  destruct E as [E|[? [? E]]]; rewrite E.

(** As [branch], for every action: fields and tests first, and a reply
    only once the request no longer depends on an undecided one. *)
Ltac explore_step :=
  match goal with
  | H : ?x = _ |- context [match ?x with _ => _ end] => rewrite H
  | |- context [match r_error ?p with Some _ => _ | None => _ end] =>
      branch_on_option (r_error p)
  | |- context [match rm_error ?p with Some _ => _ | None => _ end] =>
      branch_on_option (rm_error p)
  | |- context [match rm_data ?p with Some _ => _ | None => _ end] =>
      branch_on_option (rm_data p)
  | |- context [match p_error ?p with Some _ => _ | None => _ end] =>
      branch_on_option (p_error p)
  | |- context [match p_data ?p with Some _ => _ | None => _ end] =>
      branch_on_option (p_data p)
  | |- context [match e_error ?p with Some _ => _ | None => _ end] =>
      branch_on_option (e_error p)
  | |- context [match c_error ?p with Some _ => _ | None => _ end] =>
      branch_on_option (c_error p)
  | |- context [match data ?p with Some _ => _ | None => _ end] =>
      branch_on_option (data p)
  | |- context [match count ?p with Some _ => _ | None => _ end] =>
      branch_on_option (count p)
  | |- context [match ?l with [] => _ | _ :: _ => _ end] =>
      branch_on_list l
  | |- context [if ?b then _ else _] =>
      let E := fresh "E" in
      destruct (bool_cases b) as [E|E]; rewrite E
  | |- context [match ?g ?rq with Resolved _ => _ | Rejected _ => _ end] =>
      lazymatch rq with
      | context [g _] => fail
      | _ =>
          let E := fresh "E" in
          destruct (reply_cases g rq) as [[? E]|[[? E]|[? E]]]; rewrite E
      end
  end.

Ltac explore := simpl; repeat (explore_step; simpl).
(** The whole course of an update once the document has been found. *)
Lemma updateDocument_trace (now id_ : string) (data_ : DocumentForm)
    (file : option File) (collaborators : list string) (s : Store) (g : Gateway)
    (p1 : RowsResponse) (doc : Document) (rest : list Document) :
  g (SelectDocument id_) = Resolved p1 ->
  data p1 = Some (doc :: rest) ->
  let t := updateDocument now id_ data_ file collaborators s in
  let payload := sentPayload g now data_ file doc in
  requests g t
  = SelectDocument id_
    :: match file with Some f => [StorageUpdate (url doc) f] | None => [] end
    ++ UpdateDocument payload (id doc)
    :: match g (UpdateDocument payload (id doc)) with
       | Resolved p =>
           if status p =? 204 then
             DeleteCollaborators id_
             :: match g (DeleteCollaborators id_) with
                | Resolved _ =>
                    [InsertCollaborators
                       (collaboratorsPayload (auth_user s) id_ collaborators)]
                | Rejected _ => []
                end
           else []
       | Rejected _ => []
       end /\
  result g t
  = match g (UpdateDocument payload (id doc)) with
    | Resolved p =>
        if status p =? 204 then
          match g (DeleteCollaborators id_) with
          | Resolved _ => Returned (JVal (merged doc payload))
          | Rejected _ => Returned JUndefined
          end
        else Returned (JBool false)
    | Rejected _ => Returned JUndefined
    end /\
  (In (addSuccess "Update successful" "Document updated successfully")
      (toasts (final g t))
   <-> In (addSuccess "Update successful" "Document updated successfully") (toasts s)
       \/ exists p, g (UpdateDocument payload (id doc)) = Resolved p /\ status p = 204).
Proof.
  intros H1 Hd t payload. subst t payload.
  unfold result, final, sentPayload, replacedPath, updateDocument, getDocument,
    updateFile, updateCollaborators, insertCollaborators.
  simpl. rewrite H1. simpl. rewrite Hd.
  destruct file as [f|]; explore.
  all: split; [reflexivity|]; split; [reflexivity|].
  all: repeat (rewrite List.in_app_iff; simpl).
  all: assert (Hok : addSuccess "Update successful" "Document updated successfully"
                     = addSuccess "Update successful" "Document updated successfully")
         by reflexivity.
  all: split;
    [ intros Hin;
      repeat (destruct Hin as [Hin|Hin]); try discriminate Hin; try contradiction;
      first [ now left
            | right; eexists; split; [reflexivity | now apply Z.eqb_eq] ]
    | intros [Hin|(p & Hp & Hs)];
      [ tauto
      | first [ discriminate Hp
              | injection Hp as <-;
                first [ tauto
                      | match goal with
                        | E : (_ =? 204) = false |- _ =>
                            apply Z.eqb_neq in E; contradiction
                        end ] ] ] ].
Qed.

(** The only row update in the course of an update is the one for the
    document found, with the payload built from the form and the file. *)
Lemma updateDocument_only_update (now id_ : string) (data_ : DocumentForm)
    (file : option File) (collaborators : list string) (s : Store) (g : Gateway)
    (p1 : RowsResponse) (doc : Document) (rest : list Document)
    (payload : UpdatePayload) (docid : string) :
  g (SelectDocument id_) = Resolved p1 ->
  data p1 = Some (doc :: rest) ->
  In (UpdateDocument payload docid)
     (requests g (updateDocument now id_ data_ file collaborators s)) ->
  payload = sentPayload g now data_ file doc /\ docid = id doc.
Proof.
  intros H1 Hd Hin.
  destruct (updateDocument_trace now id_ data_ file collaborators s g p1 doc rest
              H1 Hd) as (Hrq & _).
  rewrite Hrq in Hin. clear Hrq.
  destruct Hin as [Hin|Hin]; [discriminate Hin|].
  apply List.in_app_or in Hin. destruct Hin as [Hin|Hin].
  - destruct file; simpl in Hin; [destruct Hin as [Hin|[]]; discriminate Hin | contradiction].
  - destruct Hin as [Hin|Hin]; [injection Hin as <- <-; now split|].
    exfalso.
    destruct (g (UpdateDocument (sentPayload g now data_ file doc) (id doc)))
      as [p|e]; [|contradiction].
    destruct (status p =? 204); [|contradiction].
    destruct Hin as [Hin|Hin]; [discriminate Hin|].
    destruct (g (DeleteCollaborators id_)); [|contradiction].
    destruct Hin as [Hin|[]]. discriminate Hin.
Qed.

(** X4: the payload of the row update carries the clock reading as
    [updated_at] and the fields of the form; with a replacement file it
    also carries the size, type and name of that file, whether or not the
    file could be stored, and the url is replaced only when the storage
    returned a non-empty path; without a file it carries no file metadata. *)
Theorem updateDocument_payload (now id_ : string) (data_ : DocumentForm)
    (file : option File) (collaborators : list string) (s : Store) (g : Gateway)
    (p1 : RowsResponse) (doc : Document) (rest : list Document)
    (payload : UpdatePayload) (docid : string) :
  g (SelectDocument id_) = Resolved p1 ->
  data p1 = Some (doc :: rest) ->
  In (UpdateDocument payload docid)
     (requests g (updateDocument now id_ data_ file collaborators s)) ->
  docid = id doc /\
  up_updated_at payload = now /\
  match file with
  | None =>
      up_form payload = data_ /\
      up_file_size payload = None /\
      up_file_type payload = None /\
      up_original_name payload = None
  | Some f =>
      up_file_size payload = Some (file_size f) /\
      up_file_type payload = Some (file_type f) /\
      up_original_name payload = Some (file_name f) /\
      up_form payload
      = match g (StorageUpdate (url doc) f) with
        | Resolved q =>
            match p_error q, p_data q with
            | None, Some path => if nonEmpty path then with_url path data_ else data_
            | _, _ => data_
            end
        | Rejected _ => data_
        end
  end.
Proof.
  intros H1 Hd Hin.
  destruct (updateDocument_only_update now id_ data_ file collaborators s g
              p1 doc rest payload docid H1 Hd Hin) as [-> ->].
  split; [reflexivity|]. split; [reflexivity|].
  unfold sentPayload, replacedPath. destruct file as [f|]; simpl.
  - repeat split.
    destruct (g (StorageUpdate (url doc) f)) as [q|e]; simpl; [|reflexivity].
    destruct (p_error q); simpl; [reflexivity|].
    destruct (p_data q) as [path|]; simpl; [|reflexivity].
    destruct (nonEmpty path); reflexivity.
  - repeat split.
Qed.

(** X5: after a 204 the success toast is shown and the collaborators of
    the document are removed and, unless that request is rejected,
    inserted again from the list given, after which the merged document is
    returned whatever the statuses of those two requests; a rejected
    removal makes the call return [undefined] although the row was
    updated and the toast shown.  After any other status no request
    touches the collaborators. *)
Theorem updateDocument_reconciles (now id_ : string) (data_ : DocumentForm)
    (file : option File) (collaborators : list string) (s : Store) (g : Gateway)
    (p1 : RowsResponse) (doc : Document) (rest : list Document)
    (p : StatusResponse) :
  g (SelectDocument id_) = Resolved p1 ->
  data p1 = Some (doc :: rest) ->
  g (UpdateDocument (sentPayload g now data_ file doc) (id doc)) = Resolved p ->
  let t := updateDocument now id_ data_ file collaborators s in
  (status p = 204 ->
     In (addSuccess "Update successful" "Document updated successfully")
        (toasts (final g t)) /\
     In (DeleteCollaborators id_) (requests g t) /\
     (forall q, g (DeleteCollaborators id_) = Resolved q ->
        In (InsertCollaborators (collaboratorsPayload (auth_user s) id_ collaborators))
           (requests g t) /\
        result g t
        = Returned (JVal (merged doc (sentPayload g now data_ file doc)))) /\
     (forall e, g (DeleteCollaborators id_) = Rejected e ->
        result g t = Returned JUndefined /\
        forall rows, ~ In (InsertCollaborators rows) (requests g t))) /\
  (status p <> 204 ->
     forall rq, In rq (requests g t) ->
       (forall i, rq <> DeleteCollaborators i) /\
       (forall rows, rq <> InsertCollaborators rows)).
Proof.
  intros H1 Hd Hp t.
  destruct (updateDocument_trace now id_ data_ file collaborators s g p1 doc rest
              H1 Hd) as (Hrq & Hres & Htoast).
  fold t in Hrq, Hres, Htoast. rewrite Hp in Hrq, Hres.
  split.
  - intros Hs. apply Z.eqb_eq in Hs. rewrite Hs in Hrq, Hres.
    split; [apply Htoast; right; exists p; split; [exact Hp | now apply Z.eqb_eq]|].
    split; [rewrite Hrq; right; apply List.in_or_app; right; simpl; auto|].
    split.
    + intros q Hq. rewrite Hq in Hrq, Hres. split; [|exact Hres].
      rewrite Hrq. right. apply List.in_or_app. right. simpl. auto.
    + intros e He. rewrite He in Hrq, Hres. split; [exact Hres|].
      intros rows Hin. rewrite Hrq in Hin.
      destruct Hin as [Hin|Hin]; [discriminate Hin|].
      apply List.in_app_or in Hin. destruct Hin as [Hin|Hin].
      * destruct file; simpl in Hin; [destruct Hin as [Hin|[]]; discriminate Hin | contradiction].
      * destruct Hin as [Hin|[Hin|[]]]; discriminate Hin.
  - intros Hs. apply Z.eqb_neq in Hs. rewrite Hs in Hrq.
    intros rq Hin. rewrite Hrq in Hin.
    destruct Hin as [<-|Hin]; [split; discriminate|].
    apply List.in_app_or in Hin. destruct Hin as [Hin|Hin].
    + destruct file; simpl in Hin; [destruct Hin as [<-|[]]; split; discriminate | contradiction].
    + destruct Hin as [<-|[]]. split; discriminate.
Qed.

Ltac explore_user :=
  match goal with
  | |- context [match auth_user ?s with Some _ => _ | None => _ end] =>
      branch_on_option (auth_user s)
  end.

Ltac explore_all := simpl; repeat (first [explore_step | explore_user]; simpl).

Ltac pick_request H :=
  repeat (destruct H as [H|H]; [try discriminate H|]); try contradiction.

(** X6: a document row is inserted only for a file that the storage
    accepted under a non-empty path and while a user is signed in; the row
    then carries the form with that path as url, the type, size and name
    of the file, and the id of that user. *)
Theorem createDocument_insert_payload (generateSlug : string -> string)
    (file : option File) (form : DocumentForm) (collaborators : list string)
    (s : Store) (g : Gateway) (payload : InsertPayload) :
  In (InsertDocument payload)
     (requests g (createDocument generateSlug file form collaborators s)) ->
  exists f user_ q path,
    file = Some f /\
    auth_user s = Some user_ /\
    g (StorageUpload ("public/" ++ generateSlug (file_name f)) f) = Resolved q /\
    p_error q = None /\ p_data q = Some path /\ nonEmpty path = true /\
    payload = {| ip_form := with_url path form;
                 ip_file_type := file_type f;
                 ip_file_size := file_size f;
                 ip_original_name := file_name f;
                 ip_user_id := u_id user_ |}.
Proof.
  unfold createDocument, uploadFile, insertCollaborators, fork.
  destruct file as [f|]; [|simpl; contradiction].
  explore_all; intros Hin; pick_request Hin.
  all: injection Hin as <-.
  all: do 4 eexists; repeat split; eauto.
Qed.

(** X7: [createDocument] returns [false] exactly when it gives up before
    the insert: without a file it sends no request at all and notes the
    missing document in the error map; with a file it has only tried the
    upload. *)
Theorem createDocument_gives_up (generateSlug : string -> string)
    (file : option File) (form : DocumentForm) (collaborators : list string)
    (s : Store) (g : Gateway) :
  let t := createDocument generateSlug file form collaborators s in
  (result g t = Returned (JBool false) <->
   forall payload, ~ In (InsertDocument payload) (requests g t)) /\
  (file = None ->
     result g t = Returned (JBool false) /\
     requests g t = [] /\
     errors (final g t) = <["document" := Some "Document not added."]> (errors s)) /\
  (result g t = Returned (JBool false) ->
     forall rq, In rq (requests g t) ->
       exists f, file = Some f /\
         rq = StorageUpload ("public/" ++ generateSlug (file_name f)) f).
Proof.
  intros t. subst t.
  unfold result, final, createDocument, uploadFile, insertCollaborators, fork.
  destruct file as [f|].
  - explore_all.
    all: split; [split; [intros Hr; try discriminate Hr; intros payload Hin; pick_request Hin
                        |intros Hno; try reflexivity; exfalso; eapply Hno; simpl; eauto]|].
    all: split; [discriminate|].
    all: intros Hr; try discriminate Hr.
    all: intros rq Hin; pick_request Hin; subst rq; eauto.
  - simpl. split; [split; [intros _ payload []|reflexivity]|].
    split; [intros _; repeat split|].
    intros _ rq [].
Qed.

(** X8: once the insert has been answered, [createDocument] returns the
    rows when there are any data and [null] when there are none; the
    success toast is shown exactly in the first case.  With a non-empty
    list of collaborators it then asks, without waiting, for their
    insertion under the id of the first row; with an empty list it sends
    nothing more. *)
Theorem createDocument_after_insert (generateSlug : string -> string)
    (file : option File) (form : DocumentForm) (collaborators : list string)
    (s : Store) (g : Gateway) (payload : InsertPayload) (p : RowsResponse) :
  let t := createDocument generateSlug file form collaborators s in
  let created :=
    addSuccess "Document created!"
      "Your document has been successfully uploaded and will be displayed on the docs list if it is public" in
  In (InsertDocument payload) (requests g t) ->
  g (InsertDocument payload) = Resolved p ->
  match data p with
  | None =>
      result g t = Returned JNull /\
      (In created (toasts (final g t)) -> In created (toasts s)) /\
      forall rows, ~ In (InsertCollaborators rows) (requests g t)
  | Some rows =>
      In created (toasts (final g t)) /\
      match collaborators, rows with
      | [], _ =>
          result g t = Returned (JVal rows) /\
          forall rows', ~ In (InsertCollaborators rows') (requests g t)
      | _ :: _, d :: _ =>
          result g t = Returned (JVal rows) /\
          In (InsertCollaborators
                (collaboratorsPayload (auth_user s) (id d) collaborators))
             (requests g t)
      | _ :: _, [] =>
          result g t = Returned JUndefined /\
          forall rows', ~ In (InsertCollaborators rows') (requests g t)
      end
  end.
Proof.
  intros t created. subst t created.
  unfold result, final, createDocument, uploadFile, insertCollaborators, fork.
  destruct file as [f|]; [|simpl; contradiction].
  destruct collaborators as [|c cs].
  - explore_all; intros Hin Hp; pick_request Hin.
    all: injection Hin as <-.
    all: match goal with
         | E : ?gw (InsertDocument ?q) = _ |- _ => assert_fails (constr_eq E Hp); rewrite E in Hp
         end; try discriminate Hp; injection Hp as <-.
    all: try congruence.
    all: repeat (rewrite List.in_app_iff; simpl).
    all: repeat split; auto 10; try congruence.
    all: try (intros rows' Hin; pick_request Hin).
    all: try (intros Hin; pick_request Hin; assumption).
    all: try (right; right; left; congruence).
  - explore_all; intros Hin Hp; pick_request Hin.
    all: injection Hin as <-.
    all: match goal with
         | E : ?gw (InsertDocument ?q) = _ |- _ => assert_fails (constr_eq E Hp); rewrite E in Hp
         end; try discriminate Hp; injection Hp as <-.
    all: try congruence.
    all: repeat (rewrite List.in_app_iff; simpl).
    all: repeat split; auto 10; try congruence.
    all: try (intros rows' Hin; pick_request Hin).
    all: try (intros Hin; pick_request Hin; assumption).
    all: try (right; right; left; congruence).
Qed.

(** ** Invariants of every action *)

(** Follows the structure of an action down to the stores it leaves;
    [sub] settles the calls of other actions. *)
Ltac shape_with sub :=
  repeat (cbv beta zeta;
    match goal with
    | |- preserves _ _ => solve [sub]
    | |- preserves _ (finally _ _) => apply preserves_finally
    | |- preserves _ (try_catch _ _) => apply preserves_try_catch
    | |- preserves _ (await _ _) => apply preserves_await
    | |- preserves _ (fork _ _ _) => apply preserves_fork
    | |- preserves _ (Await _ _ _) =>
        simpl; split; [|intros [?|[?|?]] ? ?]
    | |- preserves _ (Return _ _) => simpl
    | |- preserves _ (Throw _ _) => simpl
    | |- preserves _ (match ?x with _ => _ end) => destruct x
    | |- preserves _ (if ?b then _ else _) => destruct b
    | |- preserves _ ((if ?b then _ else _) _ _) => destruct b
    | |- preserves _ (userDocuments _ _ _) => unfold userDocuments
    | |- forall _, _ => intro
    end).

Ltac shape := shape_with fail.

(** The stores an action leaves only hold the two keys. *)
Ltac keys :=
  repeat match goal with
  | |- known_keys (handleDocumentError ?e _) =>
      first [ is_var e; destruct e | idtac ];
      unfold handleDocumentError, thrown
  | |- known_keys (set_errors (<[?k := _]> _) _) =>
      let k' := fresh "k" in
      intros k' ? ?; simpl; repeat rewrite lookup_insert_ne by congruence;
      first [ apply lookup_empty
            | match goal with
              | H : known_keys ?s |- errors ?s !! _ = None => now apply H
              end ]
  | |- known_keys (set_errors ∅ _) =>
      intros ? _ _; apply lookup_empty
  | |- known_keys (resetErrors _) =>
      intros ? _ _; apply lookup_empty
  | |- known_keys (?f ?v ?s) => change (known_keys s)
  | |- known_keys (match ?x with _ => _ end) => destruct x
  | |- known_keys (if ?b then _ else _) => destruct b
  | |- known_keys _ => assumption
  | H : known_keys ?s |- forall k : string, _ -> _ -> errors ?s !! k = None =>
      exact H
  | |- forall k : string, _ -> _ -> errors ?s !! k = None =>
      change (known_keys s)
  | |- forall k : string, _ -> _ -> ∅ !! k = None =>
      intros ? _ _; apply lookup_empty
  end.

Lemma known_keys_getDocumentCount (s : Store) :
  known_keys s -> preserves known_keys (getDocumentCount s).
Proof. intros H. unfold getDocumentCount. shape; keys. Qed.

Lemma known_keys_getDocuments (s : Store) :
  known_keys s -> preserves known_keys (getDocuments s).
Proof.
  intros H. unfold getDocuments.
  shape_with ltac:(apply known_keys_getDocumentCount; keys); keys.
Qed.

Lemma known_keys_getUserDocuments (criteria : GetDocumentsCriteria) (s : Store) :
  known_keys s -> preserves known_keys (getUserDocuments criteria s).
Proof. intros H. unfold getUserDocuments. shape; keys. Qed.

Lemma known_keys_uploadFile (generateSlug : string -> string) (file : option File)
    (s : Store) :
  known_keys s -> preserves known_keys (uploadFile generateSlug file s).
Proof. intros H. unfold uploadFile. shape; keys. Qed.

Lemma known_keys_insertCollaborators (documentId : string)
    (collaborators : list string) (s : Store) :
  known_keys s ->
  preserves known_keys (insertCollaborators documentId collaborators s).
Proof. intros H. unfold insertCollaborators. shape; keys. Qed.

Lemma known_keys_updateCollaborators (documentId : string)
    (collaborators : list string) (s : Store) :
  known_keys s ->
  preserves known_keys (updateCollaborators documentId collaborators s).
Proof.
  intros H. unfold updateCollaborators.
  shape_with ltac:(apply known_keys_insertCollaborators; keys); keys.
Qed.

Lemma known_keys_getDocument (id_ : string) (s : Store) :
  known_keys s -> preserves known_keys (getDocument id_ s).
Proof. intros H. unfold getDocument. shape; keys. Qed.

Lemma known_keys_updateFile (url_ : string) (file : File) (s : Store) :
  known_keys s -> preserves known_keys (updateFile url_ file s).
Proof. intros H. unfold updateFile. shape; keys. Qed.

Lemma known_keys_deleteFile (path : string) (s : Store) :
  known_keys s -> preserves known_keys (deleteFile path s).
Proof. intros H. unfold deleteFile. shape; keys. Qed.

Lemma known_keys_createDocument (generateSlug : string -> string)
    (file : option File) (form : DocumentForm) (collaborators : list string)
    (s : Store) :
  known_keys s ->
  preserves known_keys (createDocument generateSlug file form collaborators s).
Proof.
  intros H. unfold createDocument.
  shape_with ltac:(first [ apply known_keys_uploadFile
                        | apply known_keys_insertCollaborators ]; keys);
    keys.
Qed.

Lemma known_keys_updateDocument (now id_ : string) (data_ : DocumentForm)
    (file : option File) (collaborators : list string) (s : Store) :
  known_keys s ->
  preserves known_keys (updateDocument now id_ data_ file collaborators s).
Proof.
  intros H. unfold updateDocument.
  shape_with ltac:(first [ apply known_keys_getDocument
                        | apply known_keys_updateFile
                        | apply known_keys_updateCollaborators
                        | apply known_keys_insertCollaborators ]; keys);
    keys.
Qed.

Lemma known_keys_deleteDocument (id_ : string) (s : Store) :
  known_keys s -> preserves known_keys (deleteDocument id_ s).
Proof.
  intros H. unfold deleteDocument.
  shape_with ltac:(first [ apply known_keys_getDocument
                        | apply known_keys_deleteFile ]; keys);
    keys.
Qed.

(** X10: [updateDocument] and [deleteDocument] raise [loadingSingle], but the
    lookup of the document lowers it again when it completes: at every
    later request of the call (file, row, collaborators) the flag is
    already down. *)
Theorem loadingSingle_lowered_by_lookup (s : Store) (g : Gateway)
    (rq : Request) (s' : Store) :
  (forall now id_ data_ file collaborators,
     In (rq, s') (suspensions g (updateDocument now id_ data_ file collaborators s)) ->
     (rq = SelectDocument id_ /\ loadingSingle s' = true) \/
     (rq <> SelectDocument id_ /\ loadingSingle s' = false)) /\
  (forall id_,
     In (rq, s') (suspensions g (deleteDocument id_ s)) ->
     (rq = SelectDocument id_ /\ loadingSingle s' = true) \/
     (rq <> SelectDocument id_ /\ loadingSingle s' = false)).
Proof.
  split.
  - intros now id_ data_ file collaborators.
    unfold updateDocument, getDocument, updateFile, updateCollaborators,
      insertCollaborators.
    destruct file as [f|]; explore; intros Hin; pick_request Hin.
    all: try (injection Hin as <- <-; simpl;
              first [left; split; reflexivity | right; split; [discriminate|reflexivity]]).
  - intros id_.
    unfold deleteDocument, getDocument, deleteFile.
    explore; intros Hin; pick_request Hin.
    all: try (injection Hin as <- <-; simpl;
              first [left; split; reflexivity | right; split; [discriminate|reflexivity]]).
Qed.

(** ** Loading the public catalog *)

(** X11: [getDocuments] asks for the count only on page one and then for
    the window the params describe; it appends the rows it receives to
    the collection and never replaces it, also when the reply carries an
    error beside the rows; a reply without rows or a rejection leaves the
    collection as it was. *)
Theorem getDocuments_appends (s : Store) (g : Gateway) :
  let rq := GetPublicDocuments (order (params s)) (range (params s))
              (filters (params s)) in
  requests g (getDocuments s)
  = (if pageNumber s =? 1 then [CountDocuments] else []) ++ [rq] /\
  _documents (final g (getDocuments s))
  = _documents s
    ++ match g rq with
       | Resolved p => match data p with Some rows => rows | None => [] end
       | Rejected _ => []
       end.
Proof.
  intros rq. subst rq. unfold final, getDocuments, fork, getDocumentCount.
  simpl. destruct (pageNumber s =? 1); explore; split; try reflexivity.
  all: now rewrite List.app_nil_r.
Qed.

(** X12: every read starts from an empty error map: after [getDocuments]
    the map holds nothing but the error of this call, under ["email"]. *)
Theorem getDocuments_resets_errors (s : Store) (g : Gateway) :
  errors (final g (getDocuments s))
  = match g (GetPublicDocuments (order (params s)) (range (params s))
               (filters (params s))) with
    | Resolved p =>
        match r_error p with
        | Some e => {[ "email" := Some (ge_message e) ]}
        | None => ∅
        end
    | Rejected (EObj m) => {[ "email" := m ]}
    | Rejected (EStr _) => ∅
    end.
Proof.
  unfold final, getDocuments, fork, getDocumentCount.
  simpl. destruct (pageNumber s =? 1); explore; reflexivity.
Qed.

(** X13: a count that comes back sets the total only when it is not zero,
    and clears [limitReached] only when it exceeds the page size; a
    failed count is logged to the console and reaches neither the error
    map nor the toasts. *)
Theorem getDocumentCount_effect (s : Store) (g : Gateway) (p : CountResponse) :
  g CountDocuments = Resolved p ->
  let s' := final g (getDocumentCount s) in
  totalDocuments s'
  = match count p with
    | Some c => if c =? 0 then totalDocuments s else Some c
    | None => totalDocuments s
    end /\
  limitReached s'
  = match count p with
    | Some c => if (c =? 0) || (c <=? perPage) then limitReached s else false
    | None => limitReached s
    end /\
  errors s' = errors s /\ toasts s' = toasts s /\
  _documents s' = _documents s /\ params s' = params s /\
  pageNumber s' = pageNumber s.
Proof.
  intros H s'. subst s'. unfold final, getDocumentCount. simpl. rewrite H.
  destruct (c_error p); simpl.
  - destruct (count p) as [c|]; simpl; [|repeat split].
    destruct (Z.eqb_spec c 0) as [->|Hc]; simpl; [repeat split|].
    rewrite Z.leb_antisym. destruct (perPage <? c); repeat split.
  - destruct (count p) as [c|]; simpl; [|repeat split].
    destruct (Z.eqb_spec c 0) as [->|Hc]; simpl; [repeat split|].
    rewrite Z.leb_antisym. destruct (perPage <? c); repeat split.
Qed.

(** X14: paging ends.  Once the collection is as long as the known total,
    the recomputation raises [limitReached] and the next page advance
    returns at once without touching the store or the gateway; the same
    holds from the start for a catalog no larger than a page, whose count
    never clears the flag. *)
Theorem paging_stops (s : Store) (g : Gateway) (p : CountResponse) (c : Z) :
  (totalDocuments s = Some (Z.of_nat (List.length (_documents s))) ->
   limitReached (recomputeLimit s) = true /\
   nextPage (recomputeLimit s) = Return tt (recomputeLimit s)) /\
  (limitReached s = true ->
   g CountDocuments = Resolved p -> count p = Some c -> c <= perPage ->
   nextPage (final g (getDocumentCount s))
   = Return tt (final g (getDocumentCount s))).
Proof.
  split.
  - intros H. unfold recomputeLimit, watch_documents. rewrite H.
    unfold documents. rewrite List.length_map, Z.eqb_refl.
    split; reflexivity.
  - intros Hl Hg Hc Hle.
    assert (Hlim : limitReached (final g (getDocumentCount s)) = true).
    { unfold final, getDocumentCount. simpl. rewrite Hg. simpl. rewrite Hc.
      assert (Hb : (perPage <? c) = false) by now apply Z.ltb_ge.
      rewrite Hb.
      destruct (c_error p), (c =? 0); exact Hl. }
    unfold nextPage. now rewrite Hlim.
Qed.

(** ** Files *)

(** X15: the three storage calls treat an error payload differently.  A
    refused upload is dropped silently: [uploadFile] returns [null] and
    nothing is written to the error map, the toasts or the console.  A
    refused replacement is recorded under ["email"] and [updateFile]
    returns [null].  A refused removal is recorded too, and [deleteFile]
    still returns [true] when data came with it and [false] otherwise. *)
Theorem storage_error_payloads (s : Store) (g : Gateway) (e : GatewayError) :
  (forall generateSlug f q,
     g (StorageUpload ("public/" ++ generateSlug (file_name f)) f) = Resolved q ->
     p_error q = Some e ->
     run g (uploadFile generateSlug (Some f) s)
     = (Returned JNull, set_uploading false s)) /\
  (forall url_ f q,
     g (StorageUpdate url_ f) = Resolved q ->
     p_error q = Some e ->
     result g (updateFile url_ f s) = Returned JNull /\
     errors (final g (updateFile url_ f s))
     = <["email" := Some (ge_message e)]> (errors s)) /\
  (forall path q,
     g (StorageRemove [path]) = Resolved q ->
     rm_error q = Some e ->
     result g (deleteFile path s)
     = Returned (JBool match rm_data q with Some _ => true | None => false end) /\
     errors (final g (deleteFile path s))
     = <["email" := Some (ge_message e)]> (errors s)).
Proof.
  split; [|split].
  - intros generateSlug f q Hq He. unfold uploadFile. simpl.
    rewrite Hq. simpl. rewrite He. reflexivity.
  - intros url_ f q Hq He. unfold result, final, updateFile. simpl.
    rewrite Hq. simpl. rewrite He. simpl. split; reflexivity.
  - intros path q Hq He. unfold result, final, deleteFile. simpl.
    rewrite Hq. simpl. rewrite He. simpl.
    destruct (rm_data q); split; reflexivity.
Qed.

(** ** Documents that are not found *)

(** X16: when the lookup yields no row, because there are none, because the
    data are missing or because the request was rejected, [updateDocument]
    and [deleteDocument] return [false] after that single request: no
    file, row or collaborator is touched and the collection is unchanged. *)
Theorem not_found_returns_false (s : Store) (g : Gateway) (id_ : string) :
  (forall p1 doc rest,
     g (SelectDocument id_) = Resolved p1 -> data p1 <> Some (doc :: rest)) ->
  (forall now data_ file collaborators,
     let t := updateDocument now id_ data_ file collaborators s in
     result g t = Returned (JBool false) /\
     requests g t = [SelectDocument id_] /\
     _documents (final g t) = _documents s) /\
  (let t := deleteDocument id_ s in
   result g t = Returned (JBool false) /\
   requests g t = [SelectDocument id_] /\
   _documents (final g t) = _documents s).
Proof.
  intros H.
  assert (Hcases :
    (exists p1, g (SelectDocument id_) = Resolved p1 /\
                (data p1 = None \/ data p1 = Some [])) \/
    (exists e, g (SelectDocument id_) = Rejected e)).
  { destruct (g (SelectDocument id_)) as [p1|e] eqn:E; [left|right; eauto].
    exists p1. split; [reflexivity|]. specialize (H p1).
    destruct (data p1) as [[|doc rest]|]; auto.
    now destruct (H doc rest eq_refl). }
  split.
  - intros now data_ file collaborators t. subst t.
    unfold result, final, updateDocument, getDocument. simpl.
    destruct Hcases as [(p1 & -> & [Hd|Hd])|([x|m] & ->)]; simpl;
      try rewrite Hd; simpl; try destruct (r_error p1); repeat split.
  - intros t. subst t.
    unfold result, final, deleteDocument, getDocument. simpl.
    destruct Hcases as [(p1 & -> & [Hd|Hd])|([x|m] & ->)]; simpl;
      try rewrite Hd; simpl; try destruct (r_error p1); repeat split.
Qed.

(** ** Collaborators *)

(** X17: [updateCollaborators] removes the collaborators of the document and
    then inserts the given ones, also when the removal is answered with a
    status other than 204: that failure is only logged, and the error map
    and the toasts stay as the insertion leaves them. *)
Theorem updateCollaborators_inserts_anyway (documentId : string)
    (collaborators : list string) (s : Store) (g : Gateway) (p : StatusResponse) :
  g (DeleteCollaborators documentId) = Resolved p ->
  let t := updateCollaborators documentId collaborators s in
  requests g t
  = [DeleteCollaborators documentId;
     InsertCollaborators (collaboratorsPayload (auth_user s) documentId collaborators)] /\
  result g t = Returned tt /\
  errors (final g t) = errors (final g (insertCollaborators documentId collaborators s)) /\
  toasts (final g t) = toasts (final g (insertCollaborators documentId collaborators s)).
Proof.
  intros Hp t. subst t.
  unfold result, final, updateCollaborators, insertCollaborators. simpl.
  rewrite Hp. simpl.
  destruct (status p =? 204); explore; repeat split.
Qed.

(** ** Params *)

(** X18: [resetParams] restores the first window, the default order and no
    filters, and leaves the page number and the collection alone; a
    filter update after it fetches the first page, with the count asked
    again only if the page number still is 1. *)
Theorem resetParams_then_updateFilters (s : Store) (filters_ : Filters) :
  params (resetParams s)
  = {| range := firstPage; filters := None; order := [(by_created_at, false)] |} /\
  pageNumber (resetParams s) = pageNumber s /\
  _documents (resetParams s) = _documents s /\
  limitReached (resetParams s) = limitReached s /\
  dispatched (updateFilters filters_ (resetParams s))
  = (if pageNumber s =? 1 then [CountDocuments] else [])
    ++ [GetPublicDocuments [(by_created_at, false)] firstPage (Some filters_)].
Proof.
  repeat split.
  unfold updateFilters, fork, getDocuments. simpl.
  destruct (pageNumber s =? 1); reflexivity.
Qed.

(** ** Reading the documents of the signed-in user *)

(** X19: in [getUserDocuments] an error payload takes precedence over the
    rows: the call returns [null] and records the message under
    ["email"], whatever data came with it; a rejected request makes it
    return [undefined]. *)
Theorem getUserDocuments_failures (criteria : GetDocumentsCriteria) (s : Store)
    (g : Gateway) :
  (forall p e,
     userReply g criteria = inl p -> r_error p = Some e ->
     result g (getUserDocuments criteria s) = Returned JNull /\
     errors (final g (getUserDocuments criteria s))
     = {[ "email" := Some (ge_message e) ]} /\
     In (addError "Document error" (Some (ge_message e)))
        (toasts (final g (getUserDocuments criteria s)))) /\
  (forall e,
     userReply g criteria = inr e ->
     result g (getUserDocuments criteria s) = Returned JUndefined).
Proof.
  unfold result, final.
  split.
  - intros p e H He.
    destruct criteria; simpl in *;
      match goal with
      | H : match ?r with Resolved _ => _ | Rejected _ => _ end = _ |- _ =>
          destruct r as [q|x]; [|discriminate H]; injection H as ->
      end; simpl; rewrite He; simpl; repeat split;
      apply List.in_or_app; right; simpl; auto.
  - intros e H.
    destruct criteria; simpl in *;
      match goal with
      | H : match ?r with Resolved _ => _ | Rejected _ => _ end = _ |- _ =>
          destruct r as [q|x]; [discriminate H|]; injection H as ->
      end; destruct e; reflexivity.
Qed.

Lemma known_keys_initial (u : option User) (ts cs : list Label) :
  known_keys (initial u ts cs).
Proof. intros k _ _. apply lookup_empty. Qed.

Lemma known_keys_nextPage (s : Store) :
  known_keys s -> preserves known_keys (nextPage s).
Proof.
  intros H. unfold nextPage.
  shape_with ltac:(apply known_keys_getDocuments; keys); keys.
Qed.

Lemma known_keys_filters (s : Store) :
  known_keys s ->
  (forall f, preserves known_keys (updateFilters f s)) /\
  preserves known_keys (resetFilters s).
Proof.
  intros H. split; [intros f; unfold updateFilters | unfold resetFilters];
    unfold resetDocuments;
    shape_with ltac:(apply known_keys_getDocuments; keys); keys.
Qed.

(** X9: the error map never holds a key other than ["email"] and
    ["document"]: the property holds of the initial store and every
    action keeps it at each point where it hands control back, whatever
    the gateway replies and whatever ran in between. *)
Theorem error_keys_invariant (s : Store) :
  known_keys s ->
  preserves known_keys (getDocuments s) /\
  preserves known_keys (nextPage s) /\
  (forall criteria, preserves known_keys (getUserDocuments criteria s)) /\
  (forall generateSlug file, preserves known_keys (uploadFile generateSlug file s)) /\
  (forall generateSlug file form collaborators,
     preserves known_keys (createDocument generateSlug file form collaborators s)) /\
  (forall id_, preserves known_keys (getDocument id_ s)) /\
  (forall now id_ data_ file collaborators,
     preserves known_keys (updateDocument now id_ data_ file collaborators s)) /\
  (forall id_, preserves known_keys (deleteDocument id_ s)) /\
  (forall f, preserves known_keys (updateFilters f s)) /\
  preserves known_keys (resetFilters s) /\
  known_keys (resetErrors s) /\
  known_keys (resetParams s) /\
  (forall n, known_keys (watch_documents n s)).
Proof.
  intros H.
  split; [now apply known_keys_getDocuments|].
  split; [now apply known_keys_nextPage|].
  split; [intros; now apply known_keys_getUserDocuments|].
  split; [intros; now apply known_keys_uploadFile|].
  split; [intros; now apply known_keys_createDocument|].
  split; [intros; now apply known_keys_getDocument|].
  split; [intros; now apply known_keys_updateDocument|].
  split; [intros; now apply known_keys_deleteDocument|].
  split; [intros; now apply known_keys_filters|].
  split; [now apply known_keys_filters|].
  split; [intros k _ _; apply lookup_empty|].
  split; [exact H|].
  intros n. unfold watch_documents. keys.
Qed.

(** The stores an action leaves hold the collection it started with. *)
Ltac kept :=
  repeat match goal with
  | |- collection_is _ (handleDocumentError ?e _) =>
      first [ is_var e; destruct e | idtac ];
      unfold handleDocumentError, thrown
  | |- collection_is ?l (?f ?v ?s) => change (collection_is l s)
  | |- collection_is _ (match ?x with _ => _ end) => destruct x
  | |- collection_is _ (if ?b then _ else _) => destruct b
  | |- collection_is _ _ => assumption
  end.

Lemma collection_getDocumentCount (l : list Document) (s : Store) :
  collection_is l s -> preserves (collection_is l) (getDocumentCount s).
Proof. intros H. unfold getDocumentCount. shape; kept. Qed.

Lemma collection_uploadFile (l : list Document) (generateSlug : string -> string)
    (file : option File) (s : Store) :
  collection_is l s -> preserves (collection_is l) (uploadFile generateSlug file s).
Proof. intros H. unfold uploadFile. shape; kept. Qed.

Lemma collection_insertCollaborators (l : list Document) (documentId : string)
    (collaborators : list string) (s : Store) :
  collection_is l s ->
  preserves (collection_is l) (insertCollaborators documentId collaborators s).
Proof. intros H. unfold insertCollaborators. shape; kept. Qed.

Lemma collection_updateCollaborators (l : list Document) (documentId : string)
    (collaborators : list string) (s : Store) :
  collection_is l s ->
  preserves (collection_is l) (updateCollaborators documentId collaborators s).
Proof.
  intros H. unfold updateCollaborators.
  shape_with ltac:(apply collection_insertCollaborators; kept); kept.
Qed.

Lemma collection_getDocument (l : list Document) (id_ : string) (s : Store) :
  collection_is l s -> preserves (collection_is l) (getDocument id_ s).
Proof. intros H. unfold getDocument. shape; kept. Qed.

Lemma collection_updateFile (l : list Document) (url_ : string) (file : File)
    (s : Store) :
  collection_is l s -> preserves (collection_is l) (updateFile url_ file s).
Proof. intros H. unfold updateFile. shape; kept. Qed.

Lemma collection_deleteFile (l : list Document) (path : string) (s : Store) :
  collection_is l s -> preserves (collection_is l) (deleteFile path s).
Proof. intros H. unfold deleteFile. shape; kept. Qed.

Lemma collection_createDocument (l : list Document)
    (generateSlug : string -> string) (file : option File) (form : DocumentForm)
    (collaborators : list string) (s : Store) :
  collection_is l s ->
  preserves (collection_is l)
    (createDocument generateSlug file form collaborators s).
Proof.
  intros H. unfold createDocument.
  shape_with ltac:(first [ apply collection_uploadFile
                        | apply collection_insertCollaborators ]; kept);
    kept.
Qed.

Lemma collection_updateDocument (l : list Document) (now id_ : string)
    (data_ : DocumentForm) (file : option File) (collaborators : list string)
    (s : Store) :
  collection_is l s ->
  preserves (collection_is l) (updateDocument now id_ data_ file collaborators s).
Proof.
  intros H. unfold updateDocument.
  shape_with ltac:(first [ apply collection_getDocument
                        | apply collection_updateFile
                        | apply collection_updateCollaborators
                        | apply collection_insertCollaborators ]; kept);
    kept.
Qed.

(** X20: creating or updating a document, looking one up, and the file and
    collaborator calls never assign the collection: at every point where
    they hand control back, and when they complete, the store holds the
    rows it held, so a created row is not added and an updated row is not
    refreshed. *)
Theorem collection_left_alone (s : Store) (g : Gateway) :
  (forall generateSlug file form collaborators,
     preserves (collection_is (_documents s))
       (createDocument generateSlug file form collaborators s) /\
     _documents (final g (createDocument generateSlug file form collaborators s))
     = _documents s) /\
  (forall now id_ data_ file collaborators,
     preserves (collection_is (_documents s))
       (updateDocument now id_ data_ file collaborators s) /\
     _documents (final g (updateDocument now id_ data_ file collaborators s))
     = _documents s) /\
  (forall id_,
     preserves (collection_is (_documents s)) (getDocument id_ s)) /\
  (forall generateSlug file,
     preserves (collection_is (_documents s)) (uploadFile generateSlug file s)) /\
  (forall url_ file,
     preserves (collection_is (_documents s)) (updateFile url_ file s)) /\
  (forall path,
     preserves (collection_is (_documents s)) (deleteFile path s)) /\
  (forall documentId collaborators,
     preserves (collection_is (_documents s))
       (updateCollaborators documentId collaborators s)) /\
  preserves (collection_is (_documents s)) (getDocumentCount s).
Proof.
  assert (H : collection_is (_documents s) s) by reflexivity.
  split.
  { intros. split; [now apply collection_createDocument|].
    apply (preserves_final (collection_is (_documents s))).
    now apply collection_createDocument. }
  split.
  { intros. split; [now apply collection_updateDocument|].
    apply (preserves_final (collection_is (_documents s))).
    now apply collection_updateDocument. }
  split; [intros; now apply collection_getDocument|].
  split; [intros; now apply collection_uploadFile|].
  split; [intros; now apply collection_updateFile|].
  split; [intros; now apply collection_deleteFile|].
  split; [intros; now apply collection_updateCollaborators|].
  now apply collection_getDocumentCount.
Qed.

(** ** Instances *)

Lemma uncaught_rejections_witness :
  offlineGateway CountDocuments = Rejected (EObj (Some "Failed to fetch")) /\
  run offlineGateway (getDocumentCount sampleStore)
  = (Threw (EObj (Some "Failed to fetch")), sampleStore) /\
  run offlineGateway (updateCollaborators "d1" ["u2"] sampleStore)
  = (Threw (EObj (Some "Failed to fetch")), sampleStore).
Proof.
  destruct (uncaught_rejections offlineGateway sampleStore
              (EObj (Some "Failed to fetch"))) as [Hc Hu].
  split; [reflexivity|]. split; [apply Hc; reflexivity|].
  apply (Hu "d1" ["u2"]). reflexivity.
Defined.

Lemma updateDocument_payload_witness :
  In (UpdateDocument
        (sentPayload catalogGateway sampleNow sampleForm (Some sampleFile) minutes)
        "d2")
     (requests catalogGateway
        (updateDocument sampleNow "d2" sampleForm (Some sampleFile) [] loadedStore)) /\
  up_updated_at
    (sentPayload catalogGateway sampleNow sampleForm (Some sampleFile) minutes)
  = sampleNow /\
  up_file_size
    (sentPayload catalogGateway sampleNow sampleForm (Some sampleFile) minutes)
  = Some 500000.
Proof.
  assert (Hin : In (UpdateDocument
                      (sentPayload catalogGateway sampleNow sampleForm
                         (Some sampleFile) minutes) "d2")
                   (requests catalogGateway
                      (updateDocument sampleNow "d2" sampleForm (Some sampleFile) []
                         loadedStore))).
  { simpl. right. right. left. reflexivity. }
  destruct (updateDocument_payload sampleNow "d2" sampleForm (Some sampleFile) []
              loadedStore catalogGateway
              {| data := Some [minutes]; r_error := None |} minutes []
              (sentPayload catalogGateway sampleNow sampleForm (Some sampleFile) minutes)
              "d2" eq_refl eq_refl Hin) as (_ & Hnow & Hfile).
  split; [exact Hin|]. split; [exact Hnow|]. exact (proj1 Hfile).
Defined.

Lemma updateDocument_reconciles_witness :
  status {| status := 204 |} = 204 /\
  result lockedGateway (updateDocument sampleNow "d2" sampleForm None ["u2"] loadedStore)
  = Returned JUndefined /\
  In (addSuccess "Update successful" "Document updated successfully")
     (toasts (final lockedGateway
                (updateDocument sampleNow "d2" sampleForm None ["u2"] loadedStore))).
Proof.
  destruct (updateDocument_reconciles sampleNow "d2" sampleForm None ["u2"]
              loadedStore lockedGateway
              {| data := Some [minutes]; r_error := None |} minutes []
              {| status := 204 |} eq_refl eq_refl eq_refl) as [Hok _].
  destruct (Hok eq_refl) as (Htoast & _ & _ & Hrej).
  split; [reflexivity|].
  split; [|exact Htoast].
  exact (proj1 (Hrej (EObj (Some "permission denied")) eq_refl)).
Defined.

Lemma createDocument_insert_payload_witness :
  exists f user_ q path,
    Some sampleFile = Some f /\
    auth_user sampleStore = Some user_ /\
    quietGateway (StorageUpload ("public/" ++ sameName (file_name f)) f) = Resolved q /\
    p_error q = None /\ p_data q = Some path /\ nonEmpty path = true /\
    {| ip_form := with_url "public/minutes.pdf" sampleForm;
       ip_file_type := "application/pdf";
       ip_file_size := 500000;
       ip_original_name := "minutes.pdf";
       ip_user_id := "u1" |}
    = {| ip_form := with_url path sampleForm;
         ip_file_type := file_type f;
         ip_file_size := file_size f;
         ip_original_name := file_name f;
         ip_user_id := u_id user_ |}.
Proof.
  apply (createDocument_insert_payload sameName (Some sampleFile) sampleForm []
           sampleStore quietGateway).
  simpl. right. left. reflexivity.
Defined.

Lemma createDocument_gives_up_witness :
  result quietGateway (createDocument sameName None sampleForm ["u2"] sampleStore)
  = Returned (JBool false) /\
  requests quietGateway (createDocument sameName None sampleForm ["u2"] sampleStore)
  = [].
Proof.
  destruct (createDocument_gives_up sameName None sampleForm ["u2"] sampleStore
              quietGateway) as (_ & Hnone & _).
  destruct (Hnone eq_refl) as (Hr & Hq & _).
  split; [exact Hr | exact Hq].
Defined.

Lemma createDocument_after_insert_witness :
  result insertingGateway
    (createDocument sameName (Some sampleFile) sampleForm ["u2"] sampleStore)
  = Returned (JVal [report]) /\
  In (InsertCollaborators (collaboratorsPayload (Some alice) "d1" ["u2"]))
     (requests insertingGateway
        (createDocument sameName (Some sampleFile) sampleForm ["u2"] sampleStore)).
Proof.
  pose proof (createDocument_after_insert sameName (Some sampleFile) sampleForm
                ["u2"] sampleStore insertingGateway
                {| ip_form := with_url "public/minutes.pdf" sampleForm;
                   ip_file_type := "application/pdf";
                   ip_file_size := 500000;
                   ip_original_name := "minutes.pdf";
                   ip_user_id := "u1" |}
                {| data := Some [report]; r_error := None |}) as H.
  simpl in H.
  destruct H as (_ & Hr & Hin).
  - right. left. reflexivity.
  - reflexivity.
  - split; [exact Hr | exact Hin].
Defined.

Lemma loadingSingle_lowered_by_lookup_witness :
  exists s',
    In (DeleteDocument "d2", s')
       (suspensions catalogGateway (deleteDocument "d2" loadedStore)) /\
    loadingSingle s' = false.
Proof.
  eexists. split.
  - simpl. right. right. left. reflexivity.
  - match goal with
    | |- loadingSingle ?s' = false =>
        destruct (proj2 (loadingSingle_lowered_by_lookup loadedStore catalogGateway
                           (DeleteDocument "d2") s') "d2")
          as [[H _]|[_ H]]
    end.
    + simpl. right. right. left. reflexivity.
    + discriminate H.
    + exact H.
Defined.

Lemma getDocumentCount_effect_witness :
  countGateway 25 CountDocuments = Resolved {| count := Some 25; c_error := None |} /\
  totalDocuments (final (countGateway 25) (getDocumentCount sampleStore)) = Some 25 /\
  limitReached (final (countGateway 25) (getDocumentCount sampleStore)) = false.
Proof.
  destruct (getDocumentCount_effect sampleStore (countGateway 25)
              {| count := Some 25; c_error := None |} eq_refl) as (Ht & Hl & _).
  split; [reflexivity|]. split; [exact Ht | exact Hl].
Defined.

Lemma paging_stops_witness :
  totalDocuments fullStore = Some (Z.of_nat (List.length (_documents fullStore))) /\
  limitReached fullStore = false /\
  limitReached (recomputeLimit fullStore) = true /\
  nextPage (recomputeLimit fullStore) = Return tt (recomputeLimit fullStore) /\
  nextPage (final (countGateway 5) (getDocumentCount sampleStore))
  = Return tt (final (countGateway 5) (getDocumentCount sampleStore)).
Proof.
  destruct (paging_stops fullStore (countGateway 5)
              {| count := Some 5; c_error := None |} 5) as [Hfull _].
  destruct (paging_stops sampleStore (countGateway 5)
              {| count := Some 5; c_error := None |} 5) as [_ Hsmall].
  destruct (Hfull eq_refl) as [Hl Hn].
  split; [reflexivity|]. split; [reflexivity|].
  split; [exact Hl|]. split; [exact Hn|].
  apply Hsmall; [reflexivity | reflexivity | reflexivity | unfold perPage; lia].
Defined.

Lemma storage_error_payloads_witness :
  run fullGateway (uploadFile sameName (Some sampleFile) sampleStore)
  = (Returned JNull, set_uploading false sampleStore) /\
  result fullGateway (updateFile "public/report" sampleFile sampleStore)
  = Returned JNull /\
  result fullGateway (deleteFile "public/report" sampleStore)
  = Returned (JBool true).
Proof.
  destruct (storage_error_payloads sampleStore fullGateway
              {| ge_message := "quota exceeded" |}) as (Hup & Hrepl & Hrm).
  split; [|split].
  - exact (Hup sameName sampleFile
             {| p_data := None; p_error := Some {| ge_message := "quota exceeded" |} |}
             eq_refl eq_refl).
  - exact (proj1 (Hrepl "public/report" sampleFile
                    {| p_data := None;
                       p_error := Some {| ge_message := "quota exceeded" |} |}
                    eq_refl eq_refl)).
  - exact (proj1 (Hrm "public/report"
                    {| rm_data := Some [];
                       rm_error := Some {| ge_message := "quota exceeded" |} |}
                    eq_refl eq_refl)).
Defined.

Lemma not_found_returns_false_witness :
  result quietGateway (deleteDocument "d9" loadedStore) = Returned (JBool false) /\
  result quietGateway (updateDocument sampleNow "d9" sampleForm None [] loadedStore)
  = Returned (JBool false) /\
  _documents (final quietGateway (deleteDocument "d9" loadedStore))
  = _documents loadedStore.
Proof.
  assert (Hnone : forall p1 doc rest,
            quietGateway (SelectDocument "d9") = Resolved p1 ->
            data p1 <> Some (doc :: rest)).
  { intros p1 doc rest H. injection H as <-. discriminate. }
  destruct (not_found_returns_false loadedStore quietGateway "d9" Hnone)
    as [Hupdate Hdelete].
  destruct Hdelete as (Hr & _ & Hc).
  split; [exact Hr|]. split; [|exact Hc].
  exact (proj1 (Hupdate sampleNow sampleForm None [])).
Defined.

Lemma updateCollaborators_inserts_anyway_witness :
  conflictGateway (DeleteCollaborators "d1") = Resolved {| status := 409 |} /\
  requests conflictGateway (updateCollaborators "d1" ["u2"] sampleStore)
  = [DeleteCollaborators "d1";
     InsertCollaborators (collaboratorsPayload (Some alice) "d1" ["u2"])].
Proof.
  split; [reflexivity|].
  exact (proj1 (updateCollaborators_inserts_anyway "d1" ["u2"] sampleStore
                  conflictGateway {| status := 409 |} eq_refl)).
Defined.

Lemma getUserDocuments_failures_witness :
  userReply deniedGateway mine
  = inl {| data := Some [report];
           r_error := Some {| ge_message := "permission denied" |} |} /\
  result deniedGateway (getUserDocuments mine sampleStore) = Returned JNull /\
  result offlineGateway (getUserDocuments drafts sampleStore) = Returned JUndefined.
Proof.
  split; [reflexivity|]. split.
  - exact (proj1 (proj1 (getUserDocuments_failures mine sampleStore deniedGateway)
                    {| data := Some [report];
                       r_error := Some {| ge_message := "permission denied" |} |}
                    {| ge_message := "permission denied" |} eq_refl eq_refl)).
  - exact (proj2 (getUserDocuments_failures drafts sampleStore offlineGateway)
             (EObj (Some "Failed to fetch")) eq_refl).
Defined.

Lemma error_keys_invariant_witness :
  known_keys sampleStore /\
  preserves known_keys (deleteDocument "d2" sampleStore) /\
  known_keys (final fullGateway (deleteDocument "d2" sampleStore)).
Proof.
  pose proof (known_keys_initial (Some alice) sampleTags sampleCategories) as H0.
  destruct (error_keys_invariant sampleStore H0)
    as (_ & _ & _ & _ & _ & _ & _ & Hdel & _).
  split; [exact H0|]. split; [exact (Hdel "d2")|].
  apply (preserves_final known_keys). exact (Hdel "d2").
Defined.

Lemma payload_keeps_others_witness :
  "u2" <> u_id alice /\
  In "u2" (List.map cr_user_id (collaboratorsPayload (Some alice) "d1" repeatedSelf)).
Proof.
  assert (Hne : "u2" <> u_id alice) by discriminate.
  split; [exact Hne|].
  apply (payload_keeps_others alice "d1" repeatedSelf "u2" Hne).
  simpl. right. left. reflexivity.
Defined.

Lemma payload_excludes_user_listed_once_witness :
  (count_occ string_dec ["u1"; "u2"; "u2"] (u_id alice) <= 1)%nat /\
  ~ In "u1" (List.map cr_user_id (collaboratorsPayload (Some alice) "d1" ["u1"; "u2"; "u2"])).
Proof.
  assert (Hc : (count_occ string_dec ["u1"; "u2"; "u2"] (u_id alice) <= 1)%nat).
  { simpl. lia. }
  split; [exact Hc|].
  exact (payload_excludes_user_listed_once alice "d1" ["u1"; "u2"; "u2"] Hc).
Defined.


Lemma payload_no_duplicates_witness :
  List.NoDup (List.map cr_user_id (collaboratorsPayload (Some alice) "d1" repeatedSelf)) /\
  document_id {| document_id := "d1"; cr_user_id := "u2" |} = "d1".
Proof.
  destruct (payload_no_duplicates (Some alice) "d1" repeatedSelf) as [Hnd Hdoc].
  split; [exact Hnd|].
  apply Hdoc. simpl. left. reflexivity.
Defined.
